(** * GitHub Manager Full: the tool handlers of [github_full_mcp_server.py]

    A shallow embedding of the twenty-two tool handlers and of the repository
    resolver.  The PyGithub client is an external capability: it is modelled
    as records of response functions (a substitutable fake), every call on it
    is logged, and a handler is a computation that produces the log of its
    remote calls together with either the Python value it returns or the
    exception it raises.  Where the program calls the library in a way the
    library refuses before any request ([g.create_gist],
    [create_review_comment] with [commit_id], [merge] with [None] arguments,
    [decoded_content] of a file that is not base64) the refusal is part of
    the model.  Other arguments the library may refuse (a [None] ref, body,
    branch or inputs) are not modelled: what is proved about such a call is
    its place in the log, or is stated for calls the platform answers. *)

From Stdlib Require Import ZArith List String Ascii Bool Lia DecimalString.
Import ListNotations.
Local Open Scope Z_scope.
Local Open Scope string_scope.
Local Open Scope list_scope.

Set Implicit Arguments.
Local Set Warnings "-register-all".

(** ** Python values and exceptions *)

(** The JSON-like values the handlers return.  A dict is an association list
    in insertion order, as Python keeps it. *)
Inductive value : Type :=
| VNone
| VBool (b : bool)
| VInt (z : Z)
| VStr (s : string)
| VList (l : list value)
| VDict (d : list (string * value)).

Definition keys (d : list (string * value)) : list string := map fst d.

(** [str(n)] for a Python int. *)
Definition str_int (n : Z) : string := NilZero.string_of_int (Z.to_int n).

(** The payload of a PyGithub [GithubException]: the rendering [str(e)] and
    the rendering of [e.data] inside an f-string. *)
Record GithubError : Type := mkGithubError {
  gh_str : string;
  gh_data : string
}.

(** The exceptions of the program.  [UnicodeDecodeError] is a subclass of
    [ValueError]; [AttributeError] is what the access to an attribute that
    the object does not have raises; [TypeError] is what a call with a
    keyword the method does not take raises; [AssertionError] is what the
    client library raises on an argument or a resource it does not support. *)
Inductive exn : Type :=
| ValueError (msg : string)
| UnicodeDecodeError (msg : string)
| GithubException (e : GithubError)
| AttributeError (msg : string)
| TypeError (msg : string)
| AssertionError (msg : string).

Definition str_exn (e : exn) : string :=
  match e with
  | ValueError m => m
  | UnicodeDecodeError m => m
  | GithubException ge => gh_str ge
  | AttributeError m => m
  | TypeError m => m
  | AssertionError m => m
  end.

Definition is_ValueError (e : exn) : bool :=
  match e with
  | ValueError _ | UnicodeDecodeError _ => true
  | _ => false
  end.

Definition is_GithubException (e : exn) : bool :=
  match e with
  | GithubException _ => true
  | _ => false
  end.

(** [except (ValueError, GithubException)] *)
Definition ValueError_or_GithubException (e : exn) : bool :=
  is_ValueError e || is_GithubException e.

(** Truthiness of the optional values the handlers test with [if x] and
    [x if x else ...]; for optional strings see [if_str] below. *)
Definition truthy_bool (b : option bool) : bool :=
  match b with
  | Some true => true
  | _ => false
  end.

Definition truthy_list {A} (l : option (list A)) : bool :=
  match l with
  | Some (_ :: _) => true
  | _ => false
  end.

Definition opt_str (s : option string) : value :=
  match s with
  | Some x => VStr x
  | None => VNone
  end.

Definition opt_bool (b : option bool) : value :=
  match b with
  | Some x => VBool x
  | None => VNone
  end.

(** ** Resource objects of the remote platform

    Only the attributes the handlers read are kept.  A timestamp is kept
    through its ISO-8601 rendering. *)

Record datetime : Type := mkDatetime { isoformat : string }.

Record NamedUser : Type := mkNamedUser {
  user_login : string;
  user_id : Z;
  user_name : option string;
  user_email : option string;
  user_company : option string;
  user_location : option string;
  user_blog : option string;
  user_public_repos : Z;
  user_followers : Z;
  user_following : Z;
  user_created_at : datetime;
  user_html_url : string
}.

Record Issue : Type := mkIssue {
  issue_title : string;
  issue_number : Z;
  issue_html_url : string;
  issue_state : string;
  issue_created_at : datetime;
  issue_assignees : list NamedUser
}.

Record Branch : Type := mkBranch {
  branch_name : string;
  branch_protected : bool
}.

(** [content_decoded_utf8] is what [.decode('utf-8')] gives on the bytes of
    a base64-encoded file: the text ([inl]), or the message of the
    [UnicodeDecodeError] Python raises when the bytes are not valid UTF-8
    ([inr]).  It is consulted for files whose [content_encoding] is
    ["base64"] only: see [decoded_content_utf8] below. *)
Record ContentFile : Type := mkContentFile {
  content_name : string;
  content_path : string;
  content_type : string;
  content_html_url : string;
  content_encoding : string;
  content_sha : string;
  content_decoded_utf8 : string + string
}.

(** [repo.get_contents] answers with one file or with a list of entries. *)
Inductive Contents : Type :=
| SingleFile (f : ContentFile)
| Directory (entries : list ContentFile).

Record Commit : Type := mkCommit { commit_sha : string }.

(** The mapping [{'commit': ..., 'content': ...}] of the file mutations. *)
Record FileResponse : Type := mkFileResponse {
  response_commit : Commit;
  response_content : ContentFile
}.

Record MergeStatus : Type := mkMergeStatus {
  merge_message : string;
  merge_merged : bool;
  merge_sha : string
}.

Record ReviewComment : Type := mkReviewComment {
  comment_id : Z;
  comment_html_url : string
}.

Record GitRelease : Type := mkGitRelease {
  release_tag_name : string;
  release_title : string;
  release_html_url : string;
  release_created_at : datetime;
  release_published_at : option datetime;
  release_prerelease : bool;
  release_draft : bool
}.

Record Label : Type := mkLabel {
  label_name : string;
  label_color : string;
  label_description : option string;
  label_url : string
}.

Record InputFileContent : Type := mkInputFileContent { input_content : string }.

Record GistFile : Type := mkGistFile { gistfile_content : string }.

(** [gist_files] is a dict: the file names are distinct. *)
Record Gist : Type := mkGist {
  gist_id : string;
  gist_html_url : string;
  gist_description : option string;
  gist_public : bool;
  gist_files : list (string * GistFile)
}.

(** Keyword arguments carried by the [filters] dict of [list_issues]. *)
Inductive kwarg : Type :=
| KwStr (s : string)
| KwUser (u : NamedUser).

(** ** Remote calls

    One constructor per method of the client the handlers call, with the
    arguments the handler passes. *)
Inductive Call : Type :=
| Github_get_repo (full_name : string)
| Github_get_user (login : string)
| Github_get_organization (org_name : string)
| Github_get_gist (id : string)
| Repository_get_issues (filters : list (string * kwarg))
| Repository_create_issue (title body : string) (assignees : list NamedUser)
    (labels : list string)
| Repository_get_pull (number : Z)
| Repository_get_branches
| Repository_get_contents (path : string) (ref : option string)
| Repository_update_file (path message content sha : string) (branch : option string)
| Repository_create_file (path message content : string) (branch : option string)
| Repository_create_pull (title head base : string) (body : option string) (draft : bool)
| Repository_get_commit (sha : string)
| Repository_delete_file (path message sha : string) (branch : option string)
| Repository_get_releases
| Repository_create_git_release (tag name : string) (message : option string)
    (draft prerelease : bool) (target_commitish : option string)
| Repository_get_workflows
| Repository_get_workflow (id_or_name : Z + string)
| Repository_get_labels
| Repository_create_label (name color : string) (description : option string)
| PullRequest_merge (commit_message sha : option string) (merge_method : string)
| PullRequest_create_review_request (reviewers team_reviewers : option (list string))
| Workflow_create_dispatch (ref : string) (inputs : option (list (string * value)))
| Organization_get_members.

(** The calls that change the remote state. *)
Definition is_mutation (c : Call) : bool :=
  match c with
  | Repository_create_issue _ _ _ _
  | Repository_update_file _ _ _ _ _
  | Repository_create_file _ _ _ _
  | Repository_create_pull _ _ _ _ _
  | Repository_delete_file _ _ _ _
  | Repository_create_git_release _ _ _ _ _ _
  | Repository_create_label _ _ _
  | PullRequest_merge _ _ _
  | PullRequest_create_review_request _ _
  | Workflow_create_dispatch _ _ => true
  | _ => false
  end.

Definition no_mutation (log : list Call) : Prop :=
  forallb (fun c => negb (is_mutation c)) log = true.

(** ** The client capability

    A remote call answers with a resource or fails with a
    [GithubException]. *)
Definition Result (A : Type) : Type := (A + GithubError)%type.

(** [pr_merge] answers a merge request made with a commit message, a sha
    and a merge method, all three strings.  The class has no method that
    takes the keywords with which the program asks for a review comment:
    see [create_review_comment_call] below. *)
Record PullRequest : Type := mkPullRequest {
  pr_title : string;
  pr_number : Z;
  pr_state : string;
  pr_user : NamedUser;
  pr_html_url : string;
  pr_merged : bool;
  pr_mergeable : option bool;
  pr_commits : Z;
  pr_additions : Z;
  pr_deletions : Z;
  pr_changed_files : Z;
  pr_base_ref : string;
  pr_head_ref : string;
  pr_body : option string;
  pr_merge : string -> string -> string -> Result MergeStatus;
  pr_create_review_request :
    option (list string) -> option (list string) -> Result unit
}.

Record Workflow : Type := mkWorkflow {
  workflow_name : string;
  workflow_id : Z;
  workflow_state : string;
  workflow_path : string;
  workflow_html_url : string;
  workflow_create_dispatch :
    string -> option (list (string * value)) -> Result bool
}.

Record Repository : Type := mkRepository {
  repo_get_issues : list (string * kwarg) -> Result (list Issue);
  repo_create_issue :
    string -> string -> list NamedUser -> list string -> Result Issue;
  repo_get_pull : Z -> Result PullRequest;
  repo_get_branches : Result (list Branch);
  repo_get_contents : string -> option string -> Result Contents;
  repo_update_file :
    string -> string -> string -> string -> option string -> Result FileResponse;
  repo_create_file :
    string -> string -> string -> option string -> Result FileResponse;
  repo_create_pull :
    string -> string -> string -> option string -> bool -> Result PullRequest;
  repo_get_commit : string -> Result Commit;
  repo_delete_file :
    string -> string -> string -> option string -> Result FileResponse;
  repo_get_releases : Result (list GitRelease);
  repo_create_git_release :
    string -> string -> option string -> bool -> bool -> option string ->
    Result GitRelease;
  repo_get_workflows : Result (list Workflow);
  repo_get_workflow : Z + string -> Result Workflow;
  repo_get_labels : Result (list Label);
  repo_create_label : string -> string -> option string -> Result Label
}.

Record Organization : Type := mkOrganization {
  org_get_members : Result (list NamedUser)
}.

(** The methods of the client class that the program calls.  The class has
    no [create_gist] method (gists are created through the authenticated
    user), although the program calls [g.create_gist]: see [g_no_attr]
    below. *)
Record Github : Type := mkGithub {
  github_get_repo : string -> Result Repository;
  github_get_user : string -> Result NamedUser;
  github_get_organization : string -> Result Organization;
  github_get_gist : string -> Result Gist
}.

(** ** Handler computations

    A handler yields the log of the remote calls it made, in order, and its
    outcome: the value returned ([inl]) or the exception raised ([inr]). *)
Definition M (A : Type) : Type := (list Call * (A + exn))%type.

Definition ret {A} (a : A) : M A := ([], inl a).

Definition raise {A} (e : exn) : M A := ([], inr e).

Definition bind {A B} (m : M A) (k : A -> M B) : M B :=
  match m with
  | (log, inl a) => let (log', r) := k a in (log ++ log', r)
  | (log, inr e) => (log, inr e)
  end.

Notation "x <- m ;; k" := (bind m (fun x => k))
  (at level 61, m at next level, right associativity).
Notation "m ;; k" := (bind m (fun _ => k))
  (at level 61, right associativity).

(** A method call on the remote platform: logged, then answered. *)
Definition remote {A} (c : Call) (r : Result A) : M A :=
  ([c], match r with
        | inl a => inl a
        | inr ge => inr (GithubException ge)
        end).

(** [try: m  except <handles> as e: handler e] *)
Definition try_except {A} (m : M A) (handles : exn -> bool) (handler : exn -> M A) : M A :=
  match m with
  | (log, inl a) => (log, inl a)
  | (log, inr e) =>
      if handles e
      then let (log', r) := handler e in (log ++ log', r)
      else (log, inr e)
  end.

Definition log_of {A} (m : M A) : list Call := fst m.
Definition outcome {A} (m : M A) : A + exn := snd m.

(** [if s:] on an optional string: the first branch is taken for a
    non-empty string, the second for [None] and for the empty string. *)
Definition if_str {A} (s : option string) (then_ : string -> A) (else_ : A) : A :=
  match s with
  | Some (String c r) => then_ (String c r)
  | _ => else_
  end.

(** [for i, x in enumerate(xs): if i >= limit: break; body], where the body
    updates the [results] list. *)
Fixpoint for_enumerate {A R} (limit : Z) (body : A -> list R -> list R)
    (i : Z) (xs : list A) (results : list R) : list R :=
  match xs with
  | [] => results
  | x :: xs' =>
      if i >=? limit then results
      else for_enumerate limit body (i + 1) xs' (body x results)
  end.

Definition append {R} (r : R) (results : list R) : list R := results ++ [r].

(** The Error payload [{"error": msg}]. *)
Definition error_payload (msg : string) : value := VDict [("error", VStr msg)].

(** ** The process-wide client and the repository resolver

    [g] is [None] when the token is absent or was rejected at start-up. *)
Section Handlers.

Variable g : option Github.

(** Attribute access [g.<attr>] on the module-level client. *)
Definition g_attr (attr : string) : M Github :=
  match g with
  | Some gh => ret gh
  | None =>
      raise (AttributeError
               ("'NoneType' object has no attribute '" ++ attr ++ "'"))
  end.

(** Attribute access [g.<attr>] for an attribute the client class does not
    have: it raises on a client as it does on [None]. *)
Definition g_no_attr {A} (attr : string) : M A :=
  raise (AttributeError
           (match g with
            | Some _ => "'Github' object has no attribute '"
            | None => "'NoneType' object has no attribute '"
            end ++ attr ++ "'")).

Definition exn_data (e : exn) : string :=
  match e with
  | GithubException ge => gh_data ge
  | _ => ""
  end.

Definition _get_repo_safe (repo_full_name : string) : M Repository :=
  match g with
  | None =>
      raise (ValueError "GitHub token is not configured or invalid. Please set GITHUB_TOKEN environment variable correctly.")
  | Some gh =>
      try_except
        (remote (Github_get_repo repo_full_name) (github_get_repo gh repo_full_name))
        is_GithubException
        (fun e =>
           raise (ValueError ("Could not find repository '" ++ repo_full_name
                              ++ "'. Error: " ++ exn_data e)))
  end.

(** ** Tools *)

Definition issue_record (issue : Issue) : value :=
  let assignees_list :=
    match issue_assignees issue with
    | [] => []
    | _ :: _ => map (fun a => VStr (user_login a)) (issue_assignees issue)
    end in
  VDict [("title", VStr (issue_title issue));
         ("number", VInt (issue_number issue));
         ("url", VStr (issue_html_url issue));
         ("state", VStr (issue_state issue));
         ("created_at", VStr (isoformat (issue_created_at issue)));
         ("assignees", VList assignees_list)].

Definition list_issues (repo_full_name : string) (state : string) (limit : Z)
    (assignee_username : option string) : M value :=
  try_except
    (repo <- _get_repo_safe repo_full_name ;;
     filters <-
       if_str assignee_username
         (fun username =>
            gh <- g_attr "get_user" ;;
            assignee_user <- remote (Github_get_user username) (github_get_user gh username) ;;
            ret [("state", KwStr state); ("assignee", KwUser assignee_user)])
         (ret [("state", KwStr state)]) ;;
     issues <- remote (Repository_get_issues filters) (repo_get_issues repo filters) ;;
     ret (VList (for_enumerate limit
                   (fun issue results => append (issue_record issue) results)
                   0 issues [])))
    ValueError_or_GithubException
    (fun e => ret (error_payload (str_exn e))).

Definition create_github_issue (repo_full_name title body : string)
    (assignee_username : option string) (labels : option (list string)) : M value :=
  try_except
    (repo <- _get_repo_safe repo_full_name ;;
     assignees <-
       if_str assignee_username
         (fun username =>
            gh <- g_attr "get_user" ;;
            u <- remote (Github_get_user username) (github_get_user gh username) ;;
            ret [u])
         (ret []) ;;
     let labels' := if truthy_list labels
                    then match labels with Some l => l | None => [] end
                    else [] in
     issue <- remote (Repository_create_issue title body assignees labels')
                (repo_create_issue repo title body assignees labels') ;;
     ret (VDict [("message", VStr "Issue created successfully!");
                 ("title", VStr (issue_title issue));
                 ("number", VInt (issue_number issue));
                 ("url", VStr (issue_html_url issue))]))
    ValueError_or_GithubException
    (fun e => ret (error_payload (str_exn e))).

Definition get_pull_request_summary (repo_full_name : string) (pr_number' : Z) : M value :=
  try_except
    (repo <- _get_repo_safe repo_full_name ;;
     pr <- remote (Repository_get_pull pr_number') (repo_get_pull repo pr_number') ;;
     ret (VDict [("title", VStr (pr_title pr));
                 ("number", VInt (pr_number pr));
                 ("state", VStr (pr_state pr));
                 ("creator", VStr (user_login (pr_user pr)));
                 ("url", VStr (pr_html_url pr));
                 ("merged", VBool (pr_merged pr));
                 ("mergeable", opt_bool (pr_mergeable pr));
                 ("commits_count", VInt (pr_commits pr));
                 ("additions", VInt (pr_additions pr));
                 ("deletions", VInt (pr_deletions pr));
                 ("changed_files_count", VInt (pr_changed_files pr));
                 ("base_branch", VStr (pr_base_ref pr));
                 ("head_branch", VStr (pr_head_ref pr));
                 ("body", opt_str (pr_body pr))]))
    ValueError_or_GithubException
    (fun e => ret (error_payload
                     ("Could not retrieve PR summary. Check repo name or PR number. Error: "
                      ++ str_exn e))).

Definition branch_record (branch : Branch) : value :=
  VDict [("name", VStr (branch_name branch));
         ("protected", VBool (branch_protected branch))].

Definition list_branches (repo_full_name : string) (protected_only : bool)
    (limit : Z) : M value :=
  try_except
    (repo <- _get_repo_safe repo_full_name ;;
     branches <- remote Repository_get_branches (repo_get_branches repo) ;;
     ret (VList (for_enumerate limit
                   (fun branch results =>
                      if negb protected_only || branch_protected branch
                      then append (branch_record branch) results
                      else results)
                   0 branches [])))
    ValueError_or_GithubException
    (fun e => ret (error_payload (str_exn e))).

(** [contents.decoded_content.decode('utf-8')].  The library's
    [decoded_content] asserts that the file's encoding is base64; the
    decoding of the bytes then raises [UnicodeDecodeError] when they are not
    valid UTF-8. *)
Definition decoded_content_utf8 (f : ContentFile) : M string :=
  if (content_encoding f =? "base64")%string
  then match content_decoded_utf8 f with
       | inl t => ret t
       | inr msg => raise (UnicodeDecodeError msg)
       end
  else raise (AssertionError ("unsupported encoding: " ++ content_encoding f)).

Definition get_file_content_from_repo (repo_full_name path : string)
    (ref : option string) : M value :=
  try_except
    (repo <- _get_repo_safe repo_full_name ;;
     contents <- remote (Repository_get_contents path ref)
                   (repo_get_contents repo path ref) ;;
     match contents with
     | Directory _ =>
         ret (error_payload ("Path '" ++ path ++ "' is a directory, not a file."))
     | SingleFile f =>
         text <- decoded_content_utf8 f ;;
         ret (VDict [("content", VStr text);
                     ("encoding", VStr (content_encoding f));
                     ("sha", VStr (content_sha f))])
     end)
    ValueError_or_GithubException
    (fun e => ret (error_payload
                     ("Could not retrieve file content. Check repo, path, or ref. Error: "
                      ++ str_exn e))).

Definition create_or_update_file (repo_full_name path message content : string)
    (branch sha : option string) : M value :=
  try_except
    (repo <- _get_repo_safe repo_full_name ;;
     response <-
       if_str sha
         (fun sha' =>
            remote (Repository_update_file path message content sha' branch)
              (repo_update_file repo path message content sha' branch))
         (remote (Repository_create_file path message content branch)
            (repo_create_file repo path message content branch)) ;;
     ret (VDict [("message", VStr "File operation successful!");
                 ("commit_sha", VStr (commit_sha (response_commit response)));
                 ("file_path", VStr (content_path (response_content response)));
                 ("file_url", VStr (content_html_url (response_content response)))]))
    ValueError_or_GithubException
    (fun e => ret (error_payload
                     ("Could not create/update file. Check permissions, path, or SHA. Error: "
                      ++ str_exn e))).

Definition create_pull_request (repo_full_name title head base : string)
    (body : option string) (draft : bool) : M value :=
  try_except
    (repo <- _get_repo_safe repo_full_name ;;
     pull <- remote (Repository_create_pull title head base body draft)
               (repo_create_pull repo title head base body draft) ;;
     ret (VDict [("message", VStr "Pull request created successfully!");
                 ("title", VStr (pr_title pull));
                 ("number", VInt (pr_number pull));
                 ("url", VStr (pr_html_url pull));
                 ("state", VStr (pr_state pull))]))
    ValueError_or_GithubException
    (fun e => ret (error_payload (str_exn e))).

(** [pr.merge(commit_message=, sha=, merge_method=)].  The library asserts
    of each of these arguments that it is a string when it is passed at all;
    [None], the handler's default for the first two, fails the assertion
    before any request is made. *)
Definition merge_call (pr : PullRequest) (commit_message sha : option string)
    (merge_method : string) : M MergeStatus :=
  match commit_message, sha with
  | Some m, Some s =>
      remote (PullRequest_merge commit_message sha merge_method)
        (pr_merge pr m s merge_method)
  | _, _ => raise (AssertionError "None")
  end.

Definition merge_pull_request (repo_full_name : string) (pr_number' : Z)
    (commit_message sha : option string) (merge_method : string) : M value :=
  try_except
    (repo <- _get_repo_safe repo_full_name ;;
     pr <- remote (Repository_get_pull pr_number') (repo_get_pull repo pr_number') ;;
     if negb (truthy_bool (pr_mergeable pr))
     then ret (error_payload
                 ("Pull request #" ++ str_int pr_number' ++ " is not mergeable."))
     else
       merge_result <- merge_call pr commit_message sha merge_method ;;
       ret (VDict [("message", VStr (merge_message merge_result));
                   ("merged", VBool (merge_merged merge_result));
                   ("sha", VStr (merge_sha merge_result));
                   ("url", VStr (pr_html_url pr))]))
    ValueError_or_GithubException
    (fun e => ret (error_payload (str_exn e))).

(** [pr.create_review_comment(body=, commit_id=, path=, position=)].  The
    method takes no keyword [commit_id]: the call raises [TypeError] and the
    method does not run. *)
Definition create_review_comment_call (pr : PullRequest)
    (body commit_id path : string) (position : Z) : M ReviewComment :=
  raise (TypeError "PullRequest.create_review_comment() got an unexpected keyword argument 'commit_id'").

Definition add_pull_request_review_comment (repo_full_name : string)
    (pr_number' : Z) (body commit_id path : string) (position : Z) : M value :=
  try_except
    (repo <- _get_repo_safe repo_full_name ;;
     pr <- remote (Repository_get_pull pr_number') (repo_get_pull repo pr_number') ;;
     commit <- remote (Repository_get_commit commit_id) (repo_get_commit repo commit_id) ;;
     comment <- create_review_comment_call pr body (commit_sha commit) path position ;;
     ret (VDict [("message", VStr "Review comment added successfully!");
                 ("id", VInt (comment_id comment));
                 ("url", VStr (comment_html_url comment))]))
    ValueError_or_GithubException
    (fun e => ret (error_payload (str_exn e))).

Definition request_pull_request_review (repo_full_name : string) (pr_number' : Z)
    (reviewers team_reviewers : option (list string)) : M value :=
  try_except
    (repo <- _get_repo_safe repo_full_name ;;
     pr <- remote (Repository_get_pull pr_number') (repo_get_pull repo pr_number') ;;
     remote (PullRequest_create_review_request reviewers team_reviewers)
       (pr_create_review_request pr reviewers team_reviewers) ;;
     ret (VDict [("message", VStr "Review request sent successfully!")]))
    ValueError_or_GithubException
    (fun e => ret (error_payload (str_exn e))).

Definition content_record (content : ContentFile) : value :=
  VDict [("name", VStr (content_name content));
         ("path", VStr (content_path content));
         ("type", VStr (content_type content));
         ("url", VStr (content_html_url content))].

(** [for content in contents: results.append(...)] *)
Fixpoint for_each {A R} (body : A -> list R -> list R) (xs : list A)
    (results : list R) : list R :=
  match xs with
  | [] => results
  | x :: xs' => for_each body xs' (body x results)
  end.

Definition list_repository_contents (repo_full_name path : string)
    (ref : option string) : M value :=
  try_except
    (repo <- _get_repo_safe repo_full_name ;;
     contents <- remote (Repository_get_contents path ref)
                   (repo_get_contents repo path ref) ;;
     let results := [] in
     let results :=
       match contents with
       | Directory entries =>
           for_each (fun content rs => append (content_record content) rs)
             entries results
       | SingleFile f => append (content_record f) results
       end in
     ret (VList results))
    ValueError_or_GithubException
    (fun e => ret (error_payload
                     ("Could not list repository contents. Check repo, path, or ref. Error: "
                      ++ str_exn e))).

Definition delete_file (repo_full_name path message sha : string)
    (branch : option string) : M value :=
  try_except
    (repo <- _get_repo_safe repo_full_name ;;
     response <- remote (Repository_delete_file path message sha branch)
                   (repo_delete_file repo path message sha branch) ;;
     ret (VDict [("message", VStr "File deleted successfully!");
                 ("commit_sha", VStr (commit_sha (response_commit response)));
                 ("file_path", VStr path)]))
    ValueError_or_GithubException
    (fun e => ret (error_payload
                     ("Could not delete file. Check permissions, path, or SHA. Error: "
                      ++ str_exn e))).

Definition release_record (release : GitRelease) : value :=
  VDict [("tag_name", VStr (release_tag_name release));
         ("name", VStr (release_title release));
         ("url", VStr (release_html_url release));
         ("created_at", VStr (isoformat (release_created_at release)));
         ("published_at",
          match release_published_at release with
          | Some d => VStr (isoformat d)
          | None => VNone
          end);
         ("prerelease", VBool (release_prerelease release));
         ("draft", VBool (release_draft release))].

Definition list_releases (repo_full_name : string) (limit : Z) : M value :=
  try_except
    (repo <- _get_repo_safe repo_full_name ;;
     releases <- remote Repository_get_releases (repo_get_releases repo) ;;
     ret (VList (for_enumerate limit
                   (fun release results => append (release_record release) results)
                   0 releases [])))
    ValueError_or_GithubException
    (fun e => ret (error_payload (str_exn e))).

Definition create_release (repo_full_name tag_name : string)
    (name body : option string) (draft prerelease : bool)
    (target_commitish : option string) : M value :=
  try_except
    (repo <- _get_repo_safe repo_full_name ;;
     let name' := if_str name (fun n => n) tag_name in
     release <-
       remote (Repository_create_git_release tag_name name' body draft prerelease
                 target_commitish)
         (repo_create_git_release repo tag_name name' body draft prerelease
            target_commitish) ;;
     ret (VDict [("message", VStr "Release created successfully!");
                 ("tag_name", VStr (release_tag_name release));
                 ("name", VStr (release_title release));
                 ("url", VStr (release_html_url release))]))
    ValueError_or_GithubException
    (fun e => ret (error_payload (str_exn e))).

Definition workflow_record (workflow : Workflow) : value :=
  VDict [("name", VStr (workflow_name workflow));
         ("id", VInt (workflow_id workflow));
         ("state", VStr (workflow_state workflow));
         ("path", VStr (workflow_path workflow));
         ("url", VStr (workflow_html_url workflow))].

Definition list_workflows (repo_full_name : string) (limit : Z) : M value :=
  try_except
    (repo <- _get_repo_safe repo_full_name ;;
     workflows <- remote Repository_get_workflows (repo_get_workflows repo) ;;
     ret (VList (for_enumerate limit
                   (fun workflow results => append (workflow_record workflow) results)
                   0 workflows [])))
    ValueError_or_GithubException
    (fun e => ret (error_payload (str_exn e))).

(** [str(x)] for an argument that is an int or a string. *)
Definition str_id_or_name (x : Z + string) : string :=
  match x with
  | inl n => str_int n
  | inr s => s
  end.

Definition trigger_workflow (repo_full_name : string) (workflow_id_or_name : Z + string)
    (ref : string) (inputs : option (list (string * value))) : M value :=
  try_except
    (repo <- _get_repo_safe repo_full_name ;;
     workflow <-
       match workflow_id_or_name with
       | inl _ =>
           remote (Repository_get_workflow workflow_id_or_name)
             (repo_get_workflow repo workflow_id_or_name)
       | inr _ =>
           remote (Repository_get_workflow workflow_id_or_name)
             (repo_get_workflow repo workflow_id_or_name)
       end ;;
     remote (Workflow_create_dispatch ref inputs)
       (workflow_create_dispatch workflow ref inputs) ;;
     ret (VDict [("message",
                  VStr ("Workflow '" ++ str_id_or_name workflow_id_or_name
                        ++ "' dispatched successfully on ref '" ++ ref ++ "'!"))]))
    ValueError_or_GithubException
    (fun e => ret (error_payload
                     ("An unexpected error occurred while triggering workflow: "
                      ++ str_exn e
                      ++ ". Ensure workflow_id_or_name is correct and PAT has 'workflow' scope."))).

Definition label_record (label : Label) : value :=
  VDict [("name", VStr (label_name label));
         ("color", VStr (label_color label));
         ("description", opt_str (label_description label))].

Definition list_labels (repo_full_name : string) (limit : Z) : M value :=
  try_except
    (repo <- _get_repo_safe repo_full_name ;;
     labels <- remote Repository_get_labels (repo_get_labels repo) ;;
     ret (VList (for_enumerate limit
                   (fun label results => append (label_record label) results)
                   0 labels [])))
    ValueError_or_GithubException
    (fun e => ret (error_payload (str_exn e))).

Definition create_label (repo_full_name name color : string)
    (description : option string) : M value :=
  try_except
    (repo <- _get_repo_safe repo_full_name ;;
     label <- remote (Repository_create_label name color description)
                (repo_create_label repo name color description) ;;
     ret (VDict [("message", VStr "Label created successfully!");
                 ("name", VStr (label_name label));
                 ("color", VStr (label_color label));
                 ("description", opt_str (label_description label));
                 ("url", VStr (label_url label))]))
    ValueError_or_GithubException
    (fun e => ret (error_payload (str_exn e))).

(** The four tools below reach the client directly, without the resolver,
    and catch [GithubException] only.  [create_gist] asks the client for a
    method it does not have. *)

Definition get_user_profile (username : string) : M value :=
  try_except
    (gh <- g_attr "get_user" ;;
     user <- remote (Github_get_user username) (github_get_user gh username) ;;
     ret (VDict [("login", VStr (user_login user));
                 ("id", VInt (user_id user));
                 ("name", opt_str (user_name user));
                 ("email", opt_str (user_email user));
                 ("company", opt_str (user_company user));
                 ("location", opt_str (user_location user));
                 ("blog", opt_str (user_blog user));
                 ("public_repos", VInt (user_public_repos user));
                 ("followers", VInt (user_followers user));
                 ("following", VInt (user_following user));
                 ("created_at", VStr (isoformat (user_created_at user)));
                 ("url", VStr (user_html_url user))]))
    is_GithubException
    (fun e => ret (error_payload
                     ("Could not retrieve user profile for '" ++ username
                      ++ "'. Error: " ++ str_exn e))).

Definition member_record (member : NamedUser) : value :=
  VDict [("login", VStr (user_login member));
         ("id", VInt (user_id member));
         ("url", VStr (user_html_url member))].

Definition list_org_members (org_name : string) (limit : Z) : M value :=
  try_except
    (gh <- g_attr "get_organization" ;;
     org <- remote (Github_get_organization org_name) (github_get_organization gh org_name) ;;
     members <- remote Organization_get_members (org_get_members org) ;;
     ret (VList (for_enumerate limit
                   (fun member results => append (member_record member) results)
                   0 members [])))
    is_GithubException
    (fun e => ret (error_payload
                     ("Could not list organization members for '" ++ org_name
                      ++ "'. Error: " ++ str_exn e))).

Definition create_gist (public : bool) (files : list (string * string))
    (description : option string) : M value :=
  try_except
    (let file_objects :=
       map (fun item => (fst item, mkInputFileContent (snd item))) files in
     create_gist_method <- g_no_attr "create_gist" ;;
     gist <- (create_gist_method public file_objects description : M Gist) ;;
     ret (VDict [("message", VStr "Gist created successfully!");
                 ("id", VStr (gist_id gist));
                 ("url", VStr (gist_html_url gist));
                 ("description", opt_str (gist_description gist));
                 ("public", VBool (gist_public gist));
                 ("files", VList (map (fun kv => VStr (fst kv)) (gist_files gist)))]))
    is_GithubException
    (fun e => ret (error_payload
                     ("An unexpected error occurred while creating gist: " ++ str_exn e))).

Definition get_gist_content (gist_id' : string) : M value :=
  try_except
    (gh <- g_attr "get_gist" ;;
     gist <- remote (Github_get_gist gist_id') (github_get_gist gh gist_id') ;;
     let files_content :=
       for_each (fun '(filename, file_obj) d =>
                   append (filename, VStr (gistfile_content file_obj)) d)
         (gist_files gist) [] in
     ret (VDict [("id", VStr (gist_id gist));
                 ("description", opt_str (gist_description gist));
                 ("public", VBool (gist_public gist));
                 ("files", VDict files_content)]))
    is_GithubException
    (fun e => ret (error_payload
                     ("Could not retrieve gist content for ID '" ++ gist_id'
                      ++ "'. Error: " ++ str_exn e))).

End Handlers.

(** ** The list tools that take a [limit] *)

Inductive ListTool : Type :=
| ListIssues (state : string) (assignee_username : option string)
| ListBranches (protected_only : bool)
| ListReleases
| ListWorkflows
| ListLabels
| ListOrgMembers.

(** [name] is the repository for the first five tools and the organization
    for [list_org_members]. *)
Definition run_list_tool (g : option Github) (t : ListTool) (name : string)
    (limit : Z) : M value :=
  match t with
  | ListIssues state assignee_username =>
      list_issues g name state limit assignee_username
  | ListBranches protected_only => list_branches g name protected_only limit
  | ListReleases => list_releases g name limit
  | ListWorkflows => list_workflows g name limit
  | ListLabels => list_labels g name limit
  | ListOrgMembers => list_org_members g name limit
  end.

(** A record (a dict) with exactly the given fields, in order. *)
Definition has_fields (fields : list string) (v : value) : Prop :=
  exists d, v = VDict d /\ keys d = fields.

Definition is_merge (c : Call) : bool :=
  match c with
  | PullRequest_merge _ _ _ => true
  | _ => false
  end.

Definition is_create_issue (c : Call) : bool :=
  match c with
  | Repository_create_issue _ _ _ _ => true
  | _ => false
  end.

Definition is_update_file (c : Call) : bool :=
  match c with
  | Repository_update_file _ _ _ _ _ => true
  | _ => false
  end.

(** ** The tool surface

    The twenty-two registered tools with their arguments, and the invocation of
    the handler registered under each name. *)
Inductive ToolCall : Type :=
| tool_list_issues (repo_full_name state : string) (limit : Z)
    (assignee_username : option string)
| tool_create_github_issue (repo_full_name title body : string)
    (assignee_username : option string) (labels : option (list string))
| tool_get_pull_request_summary (repo_full_name : string) (pr_number : Z)
| tool_list_branches (repo_full_name : string) (protected_only : bool) (limit : Z)
| tool_get_file_content_from_repo (repo_full_name path : string) (ref : option string)
| tool_create_or_update_file (repo_full_name path message content : string)
    (branch sha : option string)
| tool_create_pull_request (repo_full_name title head base : string)
    (body : option string) (draft : bool)
| tool_merge_pull_request (repo_full_name : string) (pr_number : Z)
    (commit_message sha : option string) (merge_method : string)
| tool_add_pull_request_review_comment (repo_full_name : string) (pr_number : Z)
    (body commit_id path : string) (position : Z)
| tool_request_pull_request_review (repo_full_name : string) (pr_number : Z)
    (reviewers team_reviewers : option (list string))
| tool_list_repository_contents (repo_full_name path : string) (ref : option string)
| tool_delete_file (repo_full_name path message sha : string) (branch : option string)
| tool_list_releases (repo_full_name : string) (limit : Z)
| tool_create_release (repo_full_name tag_name : string) (name body : option string)
    (draft prerelease : bool) (target_commitish : option string)
| tool_list_workflows (repo_full_name : string) (limit : Z)
| tool_trigger_workflow (repo_full_name : string) (workflow_id_or_name : Z + string)
    (ref : string) (inputs : option (list (string * value)))
| tool_list_labels (repo_full_name : string) (limit : Z)
| tool_create_label (repo_full_name name color : string) (description : option string)
| tool_get_user_profile (username : string)
| tool_list_org_members (org_name : string) (limit : Z)
| tool_create_gist (public : bool) (files : list (string * string))
    (description : option string)
| tool_get_gist_content (gist_id : string).

Definition invoke (g : option Github) (c : ToolCall) : M value :=
  match c with
  | tool_list_issues r s l a => list_issues g r s l a
  | tool_create_github_issue r t b a l => create_github_issue g r t b a l
  | tool_get_pull_request_summary r n => get_pull_request_summary g r n
  | tool_list_branches r p l => list_branches g r p l
  | tool_get_file_content_from_repo r p ref => get_file_content_from_repo g r p ref
  | tool_create_or_update_file r p m c b s => create_or_update_file g r p m c b s
  | tool_create_pull_request r t h b body d => create_pull_request g r t h b body d
  | tool_merge_pull_request r n cm s mm => merge_pull_request g r n cm s mm
  | tool_add_pull_request_review_comment r n b c p pos =>
      add_pull_request_review_comment g r n b c p pos
  | tool_request_pull_request_review r n rs ts => request_pull_request_review g r n rs ts
  | tool_list_repository_contents r p ref => list_repository_contents g r p ref
  | tool_delete_file r p m s b => delete_file g r p m s b
  | tool_list_releases r l => list_releases g r l
  | tool_create_release r t n b d p tc => create_release g r t n b d p tc
  | tool_list_workflows r l => list_workflows g r l
  | tool_trigger_workflow r w ref i => trigger_workflow g r w ref i
  | tool_list_labels r l => list_labels g r l
  | tool_create_label r n c d => create_label g r n c d
  | tool_get_user_profile u => get_user_profile g u
  | tool_list_org_members o l => list_org_members g o l
  | tool_create_gist p f d => create_gist g p f d
  | tool_get_gist_content i => get_gist_content g i
  end.

(** The tools that obtain their repository through [_get_repo_safe]; the
    other four call the client directly. *)
Definition uses_resolver (c : ToolCall) : bool :=
  match c with
  | tool_get_user_profile _
  | tool_list_org_members _ _
  | tool_create_gist _ _ _
  | tool_get_gist_content _ => false
  | _ => true
  end.

(** The success value the docstring of a tool promises: a record or a list
    of records with the fields it names; a dict of which nothing more is said
    ("dict: Details of ... or an error"); or, for [get_gist_content], a dict
    from file names to file contents. *)
Inductive Schema : Type :=
| OneRecord (fields : list string)
| RecordList (fields : list string)
| SomeRecord
| FileMapping.

Definition documented (c : ToolCall) : Schema :=
  match c with
  | tool_list_issues _ _ _ _ =>
      RecordList ["title"; "number"; "url"; "state"; "created_at"; "assignees"]
  | tool_list_branches _ _ _ => RecordList ["name"; "protected"]
  | tool_get_file_content_from_repo _ _ _ => OneRecord ["content"; "encoding"; "sha"]
  | tool_list_repository_contents _ _ _ => RecordList ["name"; "path"; "type"; "url"]
  | tool_list_releases _ _ =>
      RecordList ["tag_name"; "name"; "url"; "created_at"; "published_at";
                  "prerelease"; "draft"]
  | tool_list_workflows _ _ => RecordList ["name"; "id"; "state"; "path"; "url"]
  | tool_list_labels _ _ => RecordList ["name"; "color"; "description"]
  | tool_list_org_members _ _ => RecordList ["login"; "id"; "url"]
  | tool_get_gist_content _ => FileMapping
  | tool_create_github_issue _ _ _ _ _
  | tool_get_pull_request_summary _ _
  | tool_create_or_update_file _ _ _ _ _ _
  | tool_create_pull_request _ _ _ _ _ _
  | tool_merge_pull_request _ _ _ _ _
  | tool_add_pull_request_review_comment _ _ _ _ _ _
  | tool_request_pull_request_review _ _ _ _
  | tool_delete_file _ _ _ _ _
  | tool_create_release _ _ _ _ _ _ _
  | tool_trigger_workflow _ _ _ _
  | tool_create_label _ _ _ _
  | tool_get_user_profile _
  | tool_create_gist _ _ _ => SomeRecord
  end.

Definition has_schema (s : Schema) (v : value) : Prop :=
  match s with
  | OneRecord fields => has_fields fields v
  | RecordList fields => exists rs, v = VList rs /\ Forall (has_fields fields) rs
  | SomeRecord => exists d, v = VDict d
  | FileMapping =>
      exists d, v = VDict d /\ Forall (fun kv => exists text, snd kv = VStr text) d
  end.

Definition is_error (v : value) : Prop := exists msg, v = error_payload msg.

(** The outcome of a call that returned an Error payload. *)
Definition returned_error (r : value + exn) : Prop :=
  exists msg, r = inl (error_payload msg).

(** A call is well behaved when it returns, and returns the documented
    success schema or the Error payload. *)
Definition well_behaved (c : ToolCall) (m : M value) : Prop :=
  exists v, outcome m = inl v /\ (has_schema (documented c) v \/ is_error v).

(** ** A substitute platform

    One repository, [acme/widgets], with five open issues, two branches of
    which only the second is protected, one pull request with conflicts and
    one whose mergeability is not computed yet; one user, [octocat]. *)
Module Fake.

Definition not_found : GithubError :=
  mkGithubError "404 {'message': 'Not Found'}" "{'message': 'Not Found'}".

Definition t0 : datetime := mkDatetime "2024-01-01T00:00:00".

Definition octocat : NamedUser :=
  mkNamedUser "octocat" 583231 (Some "The Octocat") None (Some "@github")
    (Some "San Francisco") None 8 100 9 t0 "https://github.com/octocat".

Definition issue (n : Z) (title : string) : Issue :=
  mkIssue title n ("https://github.com/acme/widgets/issues/" ++ str_int n)
    "open" t0 [octocat].

Definition issues : list Issue :=
  [issue 5 "e"; issue 4 "d"; issue 3 "c"; issue 2 "b"; issue 1 "a"].

Definition main : Branch := mkBranch "main" false.
Definition release : Branch := mkBranch "release" true.

Definition readme : ContentFile :=
  mkContentFile "README.md" "README.md" "file"
    "https://github.com/acme/widgets/blob/main/README.md" "base64"
    "3b18e512dba79e4c8300dd08aeb37f8e728b8dad" (inl "hello").

Definition src_dir : ContentFile :=
  mkContentFile "src" "src" "dir"
    "https://github.com/acme/widgets/tree/main/src" "" "9daeafb9864cf43055ae93beb0afd6c7d144bfa4"
    (inl "").

Definition src_file : ContentFile :=
  mkContentFile "widget.py" "src/widget.py" "file"
    "https://github.com/acme/widgets/blob/main/src/widget.py" "base64"
    "0c5ad8a3f1c9b0ab1fd4e1b4f3b0f3ad2a4c8f10" (inl "pass").

Definition file_response : FileResponse :=
  mkFileResponse (mkCommit "7638417db6d59f3c431d3e1f261cc637155684cd") readme.

Definition merged_ok : MergeStatus :=
  mkMergeStatus "Pull Request successfully merged" true
    "6dcb09b5b57875f334f61aebed695e2e4193db5e".

Definition pull (n : Z) (mergeable : option bool) : PullRequest :=
  mkPullRequest "Add gadget" n "open" octocat
    ("https://github.com/acme/widgets/pull/" ++ str_int n) false mergeable
    1 10 2 1 "main" "feature" None
    (fun _ _ _ => inl merged_ok)
    (fun _ _ => inl tt).

Definition new_issue : Issue :=
  mkIssue "Bug" 6 "https://github.com/acme/widgets/issues/6" "open" t0 [].

Definition widgets : Repository :=
  mkRepository
    (fun _ => inl issues)
    (fun _ _ _ _ => inl new_issue)
    (fun n => if (n =? 42)%Z then inl (pull 42 (Some false))
              else if (n =? 43)%Z then inl (pull 43 None)
              else if (n =? 44)%Z then inl (pull 44 (Some true))
              else inr not_found)
    (inl [main; release])
    (fun path _ =>
       if (path =? "README.md")%string then inl (SingleFile readme)
       else if (path =? "")%string then inl (Directory [readme; src_dir])
       else if (path =? "src")%string then inl (Directory [src_file])
       else inr not_found)
    (fun _ _ _ _ _ => inl file_response)
    (fun _ _ _ _ => inl file_response)
    (fun _ _ _ _ _ => inr not_found)
    (fun _ => inr not_found)
    (fun _ _ _ _ => inr not_found)
    (inl [])
    (fun _ _ _ _ _ _ => inr not_found)
    (inl [])
    (fun _ => inr not_found)
    (inl [])
    (fun _ _ _ => inr not_found).

Definition github : Github :=
  mkGithub
    (fun name => if (name =? "acme/widgets")%string then inl widgets
                 else inr not_found)
    (fun login => if (login =? "octocat")%string then inl octocat
                  else inr not_found)
    (fun _ => inr not_found)
    (fun _ => inr not_found).

End Fake.

(** ** Start-up of the client

    The module-level initialisation of [g].  [Github_] builds the client for
    a token, and [probe] is the authenticated look-up [g.get_user().login]
    that the start-up makes to test the token; any exception it raises is
    caught.  The second component is the line printed on the error stream. *)
Definition initialize (github_token : option string) (Github_ : string -> Github)
    (probe : Github -> string + exn) : option Github * string :=
  if_str github_token
    (fun token =>
       let g := Github_ token in
       match probe g with
       | inl _ => (Some g, "GitHub API client initialized successfully.")
       | inr e =>
           (None,
            ("Error initializing GitHub API client: " ++ str_exn e
             ++ ". Please check your GITHUB_TOKEN.")%string)
       end)
    (None,
     "GITHUB_TOKEN environment variable not set. GitHub tools will not function.").

(** ** Classes of tools and of call logs *)

(** The tools named [list_...] and [get_...]. *)
Definition is_read_only (c : ToolCall) : bool :=
  match c with
  | tool_list_issues _ _ _ _
  | tool_get_pull_request_summary _ _
  | tool_list_branches _ _ _
  | tool_get_file_content_from_repo _ _ _
  | tool_list_repository_contents _ _ _
  | tool_list_releases _ _
  | tool_list_workflows _ _
  | tool_list_labels _ _
  | tool_get_user_profile _
  | tool_list_org_members _ _
  | tool_get_gist_content _ => true
  | _ => false
  end.

(** The [repo_full_name] argument of a tool that has one. *)
Definition repository_of (c : ToolCall) : option string :=
  match c with
  | tool_list_issues r _ _ _
  | tool_create_github_issue r _ _ _ _
  | tool_get_pull_request_summary r _
  | tool_list_branches r _ _
  | tool_get_file_content_from_repo r _ _
  | tool_create_or_update_file r _ _ _ _ _
  | tool_create_pull_request r _ _ _ _ _
  | tool_merge_pull_request r _ _ _ _
  | tool_add_pull_request_review_comment r _ _ _ _ _
  | tool_request_pull_request_review r _ _ _
  | tool_list_repository_contents r _ _
  | tool_delete_file r _ _ _ _
  | tool_list_releases r _
  | tool_create_release r _ _ _ _ _ _
  | tool_list_workflows r _
  | tool_trigger_workflow r _ _ _
  | tool_list_labels r _
  | tool_create_label r _ _ _ => Some r
  | _ => None
  end.

(** A log in which only the last call may be a mutation. *)
Fixpoint mutation_only_last (log : list Call) : bool :=
  match log with
  | [] => true
  | c :: rest =>
      match rest with
      | [] => true
      | _ :: _ => negb (is_mutation c) && mutation_only_last rest
      end
  end.

(** ** A second substitute platform

    [acme/gadgets] has three releases (the last one a draft that was never
    published), two workflows whose dispatch is answered with [False] for
    the second, three labels, and resolves the commit [abc123]; the
    organization [acme] has two members; one gist is stored. *)
Module Staging.

Definition forbidden : GithubError :=
  mkGithubError "403 {'message': 'Forbidden'}" "{'message': 'Forbidden'}".

Definition t1 : datetime := mkDatetime "2024-02-01T10:00:00".
Definition t2 : datetime := mkDatetime "2024-02-02T12:30:00".

Definition hubot : NamedUser :=
  mkNamedUser "hubot" 480938 None None None None None 0 3 0 t1
    "https://github.com/hubot".

Definition v2 : GitRelease :=
  mkGitRelease "v2.0" "Second" "https://github.com/acme/gadgets/releases/tag/v2.0"
    t2 (Some t2) false false.
Definition v1 : GitRelease :=
  mkGitRelease "v1.0" "First" "https://github.com/acme/gadgets/releases/tag/v1.0"
    t1 (Some t1) false false.
Definition v3_draft : GitRelease :=
  mkGitRelease "v3.0" "Third" "https://github.com/acme/gadgets/releases/tag/v3.0"
    t2 None true true.

Definition build : Workflow :=
  mkWorkflow "build" 101 "active" ".github/workflows/build.yml"
    "https://github.com/acme/gadgets/actions/workflows/build.yml"
    (fun _ _ => inl true).
Definition deploy : Workflow :=
  mkWorkflow "deploy" 102 "active" ".github/workflows/deploy.yml"
    "https://github.com/acme/gadgets/actions/workflows/deploy.yml"
    (fun _ _ => inl false).

Definition bug : Label := mkLabel "bug" "d73a4a" (Some "Something is broken") "u1".
Definition docs : Label := mkLabel "docs" "0075ca" None "u2".
Definition wontfix : Label := mkLabel "wontfix" "ffffff" None "u3".

Definition head_commit : Commit :=
  mkCommit "abc123def4567890abc123def4567890abc123de".

Definition merged : MergeStatus :=
  mkMergeStatus "Pull Request successfully merged" true
    "0000000000000000000000000000000000000001".

Definition pull7 : PullRequest :=
  mkPullRequest "Tune gadget" 7 "open" hubot "https://github.com/acme/gadgets/pull/7"
    false (Some true) 2 5 1 1 "main" "tune" (Some "Tuning.")
    (fun _ _ _ => inl merged)
    (fun _ _ => inl tt).

Definition created_issue (title : string) : Issue :=
  mkIssue title 12 "https://github.com/acme/gadgets/issues/12" "open" t2 [hubot].

Definition created_release (tag name : string) : GitRelease :=
  mkGitRelease tag name "https://github.com/acme/gadgets/releases/tag/new" t2
    (Some t2) false false.

Definition binary : ContentFile :=
  mkContentFile "logo.png" "logo.png" "file"
    "https://github.com/acme/gadgets/blob/main/logo.png" "base64"
    "1111111111111111111111111111111111111111"
    (inr "'utf-8' codec can't decode byte 0x89 in position 0: invalid start byte").

Definition dump : ContentFile :=
  mkContentFile "dump.bin" "dump.bin" "file"
    "https://github.com/acme/gadgets/blob/main/dump.bin" "none"
    "3333333333333333333333333333333333333333" (inl "").

Definition notes : ContentFile :=
  mkContentFile "NOTES.md" "NOTES.md" "file"
    "https://github.com/acme/gadgets/blob/main/NOTES.md" "base64"
    "2222222222222222222222222222222222222222" (inl "notes").

Definition gadgets : Repository :=
  mkRepository
    (fun _ => inl [])
    (fun title _ _ _ => inl (created_issue title))
    (fun n => if (n =? 7)%Z then inl pull7 else inr forbidden)
    (inl [])
    (fun path _ =>
       if (path =? "logo.png")%string then inl (SingleFile binary)
       else if (path =? "dump.bin")%string then inl (SingleFile dump)
       else if (path =? "NOTES.md")%string then inl (SingleFile notes)
       else inr forbidden)
    (fun _ _ _ _ _ => inr forbidden)
    (fun _ _ _ _ => inr forbidden)
    (fun _ _ _ _ _ => inr forbidden)
    (fun sha => if (sha =? "abc123")%string then inl head_commit else inr forbidden)
    (fun _ _ _ _ => inr forbidden)
    (inl [v2; v1; v3_draft])
    (fun tag name _ _ _ _ => inl (created_release tag name))
    (inl [build; deploy])
    (fun w => match w with
              | inr "deploy.yml"%string => inl deploy
              | inl 101%Z => inl build
              | _ => inr forbidden
              end)
    (inl [bug; docs; wontfix])
    (fun _ _ _ => inr forbidden).

Definition acme : Organization := mkOrganization (inl [hubot; Fake.octocat]).

Definition stored_gist : Gist :=
  mkGist "g1" "https://gist.github.com/g1" (Some "two files") true
    [("a.txt", mkGistFile "alpha"); ("b.txt", mkGistFile "beta")].

Definition github : Github :=
  mkGithub
    (fun name => if (name =? "acme/gadgets")%string then inl gadgets
                 else inr forbidden)
    (fun login => if (login =? "hubot")%string then inl hubot else inr forbidden)
    (fun name => if (name =? "acme")%string then inl acme else inr forbidden)
    (fun id => if (id =? "g1")%string then inl stored_gist else inr forbidden).

End Staging.

(** * Properties *)

(** ** Rendering of integers *)

Example str_int_42 : str_int 42 = "42".
Proof. reflexivity. Qed.

Example str_int_neg : str_int (-7) = "-7".
Proof. reflexivity. Qed.

(** ** The loops *)

Lemma for_each_app {A R} (f : A -> R) (xs : list A) (acc : list R) :
  for_each (fun x rs => append (f x) rs) xs acc = acc ++ map f xs.
Proof.
  revert acc; induction xs as [|x xs IH]; intros acc; simpl.
  - now rewrite app_nil_r.
  - rewrite IH. unfold append. now rewrite <- app_assoc.
Qed.

Lemma for_each_filter_app {A R} (p : A -> bool) (f : A -> R) (xs : list A)
    (acc : list R) :
  for_each (fun x rs => if p x then append (f x) rs else rs) xs acc
  = acc ++ map f (filter p xs).
Proof.
  revert acc; induction xs as [|x xs IH]; intros acc; simpl.
  - now rewrite app_nil_r.
  - rewrite IH. destruct (p x); simpl; trivial.
    unfold append. now rewrite <- app_assoc.
Qed.

(** The capped loop runs the body over the first [limit - i] elements. *)
Lemma for_enumerate_firstn {A R} (limit : Z) (body : A -> list R -> list R)
    (xs : list A) : forall i acc,
  for_enumerate limit body i xs acc
  = for_each body (firstn (Z.to_nat (limit - i)) xs) acc.
Proof.
  induction xs as [|x xs IH]; intros i acc; simpl.
  - now rewrite firstn_nil.
  - destruct (Z.geb_spec i limit) as [Hge|Hlt].
    + replace (Z.to_nat (limit - i)) with 0%nat by lia. reflexivity.
    + replace (Z.to_nat (limit - i)) with (S (Z.to_nat (limit - (i + 1)))) by lia.
      simpl. apply IH.
Qed.

Lemma for_enumerate_append {A R} (limit : Z) (f : A -> R) (xs : list A) :
  for_enumerate limit (fun x rs => append (f x) rs) 0 xs []
  = map f (firstn (Z.to_nat limit) xs).
Proof.
  rewrite for_enumerate_firstn, for_each_app, Z.sub_0_r. reflexivity.
Qed.

Lemma for_enumerate_filter {A R} (limit : Z) (p : A -> bool) (f : A -> R)
    (xs : list A) :
  for_enumerate limit (fun x rs => if p x then append (f x) rs else rs) 0 xs []
  = map f (filter p (firstn (Z.to_nat limit) xs)).
Proof.
  rewrite for_enumerate_firstn, for_each_filter_app, Z.sub_0_r. reflexivity.
Qed.

Lemma length_firstn_le {A} (n : nat) (xs : list A) :
  (List.length (firstn n xs) <= n)%nat.
Proof. rewrite List.length_firstn. lia. Qed.

Lemma length_filter_le {A} (p : A -> bool) (xs : list A) :
  (List.length (filter p xs) <= List.length xs)%nat.
Proof.
  induction xs as [|x xs IH]; simpl; [lia|].
  destruct (p x); simpl; lia.
Qed.

(** ** Running a handler *)

Lemma outcome_bind_inl {A B} (m : M A) (k : A -> M B) (v : B) :
  outcome (bind m k) = inl v ->
  exists a, outcome m = inl a /\ outcome (k a) = inl v.
Proof.
  destruct m as [log [a|e]]; unfold bind, outcome; simpl.
  - destruct (k a) as [log' r] eqn:Hk; simpl. intros ->.
    exists a. now rewrite Hk.
  - discriminate.
Qed.

(** A list returned by a handler whose [except] clause returns an Error
    payload was returned by the body of its [try]. *)
Lemma outcome_try_except_list (body : M value) (handles : exn -> bool)
    (message : exn -> string) (rs : list value) :
  outcome (try_except body handles (fun e => ret (error_payload (message e))))
  = inl (VList rs) ->
  outcome body = inl (VList rs).
Proof.
  destruct body as [log [v|e]]; unfold try_except, outcome; simpl; trivial.
  destruct (handles e); simpl; discriminate.
Qed.

Lemma outcome_ret_inl {A} (a v : A) : outcome (ret a) = inl v -> a = v.
Proof. unfold outcome, ret; simpl. congruence. Qed.

(** Peels the [try], the binds and the final [return] off a hypothesis
    that says a handler returned a list. *)
Ltac returned_list H :=
  apply outcome_try_except_list in H;
  repeat (let a := fresh "a" in
          let Ha := fresh "Ha" in
          apply outcome_bind_inl in H; destruct H as (a & Ha & H));
  apply outcome_ret_inl in H.

Lemma capped_append_length {A} (limit : Z) (f : A -> value) (xs : list A) :
  Z.of_nat (List.length (for_enumerate limit (fun x rs => append (f x) rs) 0 xs []))
  <= Z.max 0 limit.
Proof.
  rewrite for_enumerate_append, length_map.
  pose proof (length_firstn_le (Z.to_nat limit) xs). lia.
Qed.

Lemma capped_filter_length {A} (limit : Z) (p : A -> bool) (f : A -> value)
    (xs : list A) :
  Z.of_nat (List.length
              (for_enumerate limit (fun x rs => if p x then append (f x) rs else rs)
                 0 xs []))
  <= Z.max 0 limit.
Proof.
  rewrite for_enumerate_filter, length_map.
  pose proof (length_filter_le p (firstn (Z.to_nat limit) xs)).
  pose proof (length_firstn_le (Z.to_nat limit) xs). lia.
Qed.

(** ** Result counts of the list tools *)

(** C2, as amended.  For each of the six list tools that take a [limit],
    and for every client, argument and limit, a successful result holds at
    most [max 0 limit] records: never more than a non-negative limit, and
    none when the limit is negative. *)
Theorem list_tools_count_capped (g : option Github) (t : ListTool)
    (name : string) (limit : Z) (rs : list value) :
  outcome (run_list_tool g t name limit) = inl (VList rs) ->
  Z.of_nat (List.length rs) <= Z.max 0 limit.
Proof.
  destruct t; simpl; intros H.
  - unfold list_issues in H. returned_list H.
    injection H as <-. apply capped_append_length.
  - unfold list_branches in H. returned_list H.
    injection H as <-. apply capped_filter_length.
  - unfold list_releases in H. returned_list H.
    injection H as <-. apply capped_append_length.
  - unfold list_workflows in H. returned_list H.
    injection H as <-. apply capped_append_length.
  - unfold list_labels in H. returned_list H.
    injection H as <-. apply capped_append_length.
  - unfold list_org_members in H. returned_list H.
    injection H as <-. apply capped_append_length.
Qed.

Lemma list_tools_count_capped_witness :
  outcome (run_list_tool (Some Fake.github) (ListIssues "open" None)
             "acme/widgets" 2)
  = inl (VList (map issue_record [Fake.issue 5 "e"; Fake.issue 4 "d"]))
  /\ Z.of_nat (List.length (map issue_record [Fake.issue 5 "e"; Fake.issue 4 "d"]))
     <= Z.max 0 2.
Proof.
  split.
  - reflexivity.
  - apply (@list_tools_count_capped (Some Fake.github) (ListIssues "open" None)
             "acme/widgets" 2).
    reflexivity.
Defined.

(** With a negative limit the loop stops at once and the empty list is
    returned: its count, 0, is above the limit that was supplied. *)
Lemma list_tools_negative_limit_counterexample :
  ~ (forall (g : option Github) (t : ListTool) (name : string) (limit : Z)
            (rs : list value),
        outcome (run_list_tool g t name limit) = inl (VList rs) ->
        Z.of_nat (List.length rs) <= limit).
Proof.
  intros H.
  specialize (H (Some Fake.github) (ListIssues "open" None) "acme/widgets" (-1) []
                eq_refl).
  simpl in H. lia.
Qed.

(** ** Records, and calls without a client *)

Lemma Forall_map_fields {A} (fields : list string) (f : A -> value) (xs : list A) :
  (forall x, has_fields fields (f x)) -> Forall (has_fields fields) (map f xs).
Proof.
  intros Hf. induction xs as [|x xs IH]; simpl; constructor; auto.
Qed.

Lemma issue_record_fields (issue : Issue) :
  has_fields ["title"; "number"; "url"; "state"; "created_at"; "assignees"]
    (issue_record issue).
Proof. eexists; split; reflexivity. Qed.

Lemma capped_records {A} (fields : list string) (limit : Z) (f : A -> value)
    (xs : list A) :
  (forall x, has_fields fields (f x)) ->
  Forall (has_fields fields)
    (for_enumerate limit (fun x rs => append (f x) rs) 0 xs []).
Proof.
  intros Hf. rewrite for_enumerate_append. now apply Forall_map_fields.
Qed.

Lemma capped_filtered_records {A} (fields : list string) (limit : Z)
    (p : A -> bool) (f : A -> value) (xs : list A) :
  (forall x, has_fields fields (f x)) ->
  Forall (has_fields fields)
    (for_enumerate limit (fun x rs => if p x then append (f x) rs else rs) 0 xs []).
Proof.
  intros Hf. rewrite for_enumerate_filter. now apply Forall_map_fields.
Qed.

Lemma each_record {A} (fields : list string) (f : A -> value) (xs : list A) :
  (forall x, has_fields fields (f x)) ->
  Forall (has_fields fields) (for_each (fun x rs => append (f x) rs) xs []).
Proof.
  intros Hf. rewrite for_each_app. now apply Forall_map_fields.
Qed.

(** Case analysis on every answer of the platform a handler consults. *)
Ltac platform_cases :=
  repeat match goal with
         | |- context [match ?x with _ => _ end] =>
             lazymatch x with
             | context [match _ with _ => _ end] => fail
             | _ => destruct x eqn:?
             end; simpl
         end.

(** Without a client, the tools that go through the resolver answer with
    the configuration error. *)
Lemma resolver_tools_unconfigured (c : ToolCall) :
  uses_resolver c = true ->
  exists prefix,
    invoke None c
    = ([], inl (error_payload
                  (prefix ++ "GitHub token is not configured or invalid. Please set GITHUB_TOKEN environment variable correctly."
                   ++ match c with
                      | tool_trigger_workflow _ _ _ _ =>
                          ". Ensure workflow_id_or_name is correct and PAT has 'workflow' scope."
                      | _ => ""
                      end))).
Proof.
  destruct c; simpl; try discriminate; intros _.
  all: eexists; cbv [list_issues create_github_issue get_pull_request_summary
         list_branches get_file_content_from_repo create_or_update_file
         create_pull_request merge_pull_request add_pull_request_review_comment
         request_pull_request_review list_repository_contents delete_file
         list_releases create_release list_workflows trigger_workflow
         list_labels create_label
         bind try_except ret raise _get_repo_safe
         ValueError_or_GithubException is_ValueError orb str_exn app].
  all: try (instantiate (1 := ""); reflexivity).
  all: try reflexivity.
Qed.

(** C1.  With no configured client ([g] is [None]) the four tools that
    call the client directly raise [AttributeError], which their
    [except GithubException] clause does not catch: the call ends with an
    exception instead of returning a payload.  The tools that go through the
    resolver return the Error payload on the same input. *)
Theorem direct_tools_raise_unconfigured (username org_name gist_id' : string)
    (limit : Z) (public : bool) (files : list (string * string))
    (description : option string) :
  invoke None (tool_get_user_profile username)
  = ([], inr (AttributeError "'NoneType' object has no attribute 'get_user'"))
  /\ invoke None (tool_list_org_members org_name limit)
     = ([], inr (AttributeError "'NoneType' object has no attribute 'get_organization'"))
  /\ invoke None (tool_create_gist public files description)
     = ([], inr (AttributeError "'NoneType' object has no attribute 'create_gist'"))
  /\ invoke None (tool_get_gist_content gist_id')
     = ([], inr (AttributeError "'NoneType' object has no attribute 'get_gist'"))
  /\ ~ well_behaved (tool_get_user_profile username)
         (invoke None (tool_get_user_profile username)).
Proof.
  repeat split; try reflexivity.
  intros (v & Hv & _). discriminate Hv.
Qed.

(** ** list_branches *)

(** The cap is applied to the branches scanned, the filter afterwards. *)
Lemma list_branches_returns (gh : Github) (repo : Repository) (name : string)
    (protected_only : bool) (limit : Z) (branches : list Branch) :
  github_get_repo gh name = inl repo ->
  repo_get_branches repo = inl branches ->
  outcome (list_branches (Some gh) name protected_only limit)
  = inl (VList (map branch_record
                  (filter (fun b => negb protected_only || branch_protected b)
                     (firstn (Z.to_nat limit) branches)))).
Proof.
  intros Hrepo Hbranches. unfold list_branches.
  cbv [bind try_except remote ret outcome _get_repo_safe].
  rewrite Hrepo; simpl. rewrite Hbranches; simpl.
  now rewrite for_enumerate_filter.
Qed.

(** When the enumeration is no longer than the limit, the capped loop with
    an unconditional append shapes all of it. *)
Lemma capped_append_all {A} (limit : Z) (f : A -> value) (xs : list A) :
  Z.of_nat (List.length xs) <= limit ->
  for_enumerate limit (fun x rs => append (f x) rs) 0 xs [] = map f xs.
Proof.
  intros Hle. rewrite for_enumerate_append, firstn_all2; trivial. lia.
Qed.

(** The tools without a local filter return the whole enumeration when it
    is within the limit; [list_labels] for one. *)
Lemma list_labels_returns_all (gh : Github) (repo : Repository) (name : string)
    (limit : Z) (labels : list Label) :
  github_get_repo gh name = inl repo ->
  repo_get_labels repo = inl labels ->
  Z.of_nat (List.length labels) <= limit ->
  outcome (list_labels (Some gh) name limit) = inl (VList (map label_record labels)).
Proof.
  intros Hrepo Hlabels Hle. unfold list_labels.
  cbv [bind try_except remote ret outcome _get_repo_safe].
  rewrite Hrepo; simpl. rewrite Hlabels; simpl.
  now rewrite capped_append_all.
Qed.

(** Without the filter [list_branches] does so too. *)
Lemma list_branches_returns_all (gh : Github) (repo : Repository) (name : string)
    (limit : Z) (branches : list Branch) :
  github_get_repo gh name = inl repo ->
  repo_get_branches repo = inl branches ->
  Z.of_nat (List.length branches) <= limit ->
  outcome (list_branches (Some gh) name false limit)
  = inl (VList (map branch_record branches)).
Proof.
  intros Hrepo Hbranches Hle.
  rewrite (@list_branches_returns gh repo name false limit branches Hrepo Hbranches).
  assert (Hall : firstn (Z.to_nat limit) branches = branches)
    by (apply firstn_all2; lia).
  rewrite Hall. do 3 f_equal.
  clear. induction branches as [|b bs IH]; simpl in *; [reflexivity|].
  now f_equal.
Qed.

(** C3.  On the substitute platform the repository has the branches
    [main] (unprotected) and [release] (protected), in that order.  With
    [protected_only = true] and [limit = 1] there is one protected branch,
    which is within the limit, and [list_branches] returns no record: the
    loop index counts the branches scanned, so the cap is reached on [main]
    before [release] is looked at. *)
Theorem list_branches_protected_only_drops_branch :
  repo_get_branches Fake.widgets = inl [Fake.main; Fake.release]
  /\ filter branch_protected [Fake.main; Fake.release] = [Fake.release]
  /\ Z.of_nat (List.length (filter branch_protected [Fake.main; Fake.release])) <= 1
  /\ outcome (list_branches (Some Fake.github) "acme/widgets" true 1) = inl (VList [])
  /\ outcome (list_branches (Some Fake.github) "acme/widgets" true 2)
     = inl (VList [branch_record Fake.release]).
Proof. repeat split; simpl; try reflexivity; lia. Qed.

(** ** merge_pull_request *)

Lemma merge_pull_request_refused (gh : Github) (repo : Repository)
    (pr : PullRequest) (name : string) (n : Z) (commit_message sha : option string)
    (merge_method : string) :
  github_get_repo gh name = inl repo ->
  repo_get_pull repo n = inl pr ->
  truthy_bool (pr_mergeable pr) = false ->
  merge_pull_request (Some gh) name n commit_message sha merge_method
  = ([Github_get_repo name; Repository_get_pull n],
     inl (error_payload ("Pull request #" ++ str_int n ++ " is not mergeable."))).
Proof.
  intros Hrepo Hpr Hflag. unfold merge_pull_request.
  cbv [bind try_except remote ret _get_repo_safe].
  rewrite Hrepo; simpl. rewrite Hpr; simpl. rewrite Hflag; simpl.
  reflexivity.
Qed.

(** C4.  When the platform reports the pull request with its mergeable
    flag false, [merge_pull_request] returns the Error payload whose message
    is "Pull request #<n> is not mergeable." with <n> the number given, and
    its remote calls are the two look-ups only: the merge is not invoked, nor
    any other mutation. *)
Theorem merge_pull_request_flag_false (gh : Github) (repo : Repository)
    (pr : PullRequest) (name : string) (n : Z) (commit_message sha : option string)
    (merge_method : string) :
  github_get_repo gh name = inl repo ->
  repo_get_pull repo n = inl pr ->
  pr_mergeable pr = Some false ->
  let run := merge_pull_request (Some gh) name n commit_message sha merge_method in
  outcome run
  = inl (VDict [("error", VStr ("Pull request #" ++ str_int n ++ " is not mergeable."))])
  /\ existsb is_merge (log_of run) = false
  /\ no_mutation (log_of run).
Proof.
  intros Hrepo Hpr Hflag run. subst run.
  rewrite (@merge_pull_request_refused gh repo pr name n commit_message sha
             merge_method Hrepo Hpr)
    by (rewrite Hflag; reflexivity).
  repeat split.
Qed.

Lemma merge_pull_request_flag_false_witness :
  let run := merge_pull_request (Some Fake.github) "acme/widgets" 42 None None "merge" in
  outcome run
  = inl (VDict [("error", VStr "Pull request #42 is not mergeable.")])
  /\ existsb is_merge (log_of run) = false
  /\ no_mutation (log_of run).
Proof.
  apply (@merge_pull_request_flag_false Fake.github Fake.widgets
           (Fake.pull 42 (Some false)) "acme/widgets" 42 None None "merge");
    reflexivity.
Defined.

(** C9.  A flag that is not true, be it false or not computed yet ([None]),
    is refused alike: the same Error payload is returned and the merge is
    never invoked. *)
Theorem merge_pull_request_flag_not_true (gh : Github) (repo : Repository)
    (pr : PullRequest) (name : string) (n : Z) (commit_message sha : option string)
    (merge_method : string) :
  github_get_repo gh name = inl repo ->
  repo_get_pull repo n = inl pr ->
  pr_mergeable pr <> Some true ->
  let run := merge_pull_request (Some gh) name n commit_message sha merge_method in
  outcome run
  = inl (VDict [("error", VStr ("Pull request #" ++ str_int n ++ " is not mergeable."))])
  /\ existsb is_merge (log_of run) = false
  /\ no_mutation (log_of run).
Proof.
  intros Hrepo Hpr Hflag run. subst run.
  rewrite (@merge_pull_request_refused gh repo pr name n commit_message sha
             merge_method Hrepo Hpr).
  - repeat split.
  - destruct (pr_mergeable pr) as [[|]|]; trivial. now contradiction Hflag.
Qed.

Lemma merge_pull_request_flag_not_true_witness :
  let run := merge_pull_request (Some Fake.github) "acme/widgets" 43 None None "squash" in
  pr_mergeable (Fake.pull 43 None) = None
  /\ outcome run
     = inl (VDict [("error", VStr "Pull request #43 is not mergeable.")])
  /\ existsb is_merge (log_of run) = false
  /\ no_mutation (log_of run).
Proof.
  split; [reflexivity|].
  apply (@merge_pull_request_flag_not_true Fake.github Fake.widgets
           (Fake.pull 43 None) "acme/widgets" 43 None None "squash");
    [reflexivity | reflexivity | discriminate].
Defined.

(** A mergeable pull request goes on to the merge call. *)
Example merge_pull_request_mergeable :
  log_of (merge_pull_request (Some Fake.github) "acme/widgets" 44
            (Some "Merge gadget") (Some "6dcb09b5b57875f334f61aebed695e2e4193db5e")
            "merge")
  = [Github_get_repo "acme/widgets"; Repository_get_pull 44;
     PullRequest_merge (Some "Merge gadget")
       (Some "6dcb09b5b57875f334f61aebed695e2e4193db5e") "merge"].
Proof. reflexivity. Qed.

(** ** Files and directories *)

(** C7.  Once the path is resolved, [list_repository_contents] returns a
    list in both cases.  When the platform answers with a single file, it is
    the one-element list holding that file's record: its name, path, type
    and url under the keys name, path, type, url.  When it answers with a
    directory listing, it holds one such record per entry, in order. *)
Theorem list_repository_contents_always_list (gh : Github) (repo : Repository)
    (name path : string) (ref : option string) (contents : Contents) :
  github_get_repo gh name = inl repo ->
  repo_get_contents repo path ref = inl contents ->
  exists rs,
    outcome (list_repository_contents (Some gh) name path ref) = inl (VList rs)
    /\ rs = match contents with
            | SingleFile f =>
                [VDict [("name", VStr (content_name f));
                        ("path", VStr (content_path f));
                        ("type", VStr (content_type f));
                        ("url", VStr (content_html_url f))]]
            | Directory entries =>
                map (fun entry =>
                       VDict [("name", VStr (content_name entry));
                              ("path", VStr (content_path entry));
                              ("type", VStr (content_type entry));
                              ("url", VStr (content_html_url entry))])
                  entries
            end
    /\ Forall (has_fields ["name"; "path"; "type"; "url"]) rs.
Proof.
  intros Hrepo Hcontents. unfold list_repository_contents.
  cbv [bind try_except remote ret outcome _get_repo_safe].
  rewrite Hrepo; simpl. rewrite Hcontents; simpl.
  eexists; split; [reflexivity|].
  destruct contents as [f|entries]; simpl.
  - split; [reflexivity|]. repeat constructor. eexists; split; reflexivity.
  - rewrite for_each_app; simpl. split; [reflexivity|].
    apply Forall_map_fields. intros c. eexists; split; reflexivity.
Qed.

Lemma list_repository_contents_always_list_witness :
  exists rs,
    outcome (list_repository_contents (Some Fake.github) "acme/widgets" "README.md"
               (Some "main"))
    = inl (VList rs)
    /\ rs = [VDict [("name", VStr "README.md");
                    ("path", VStr "README.md");
                    ("type", VStr "file");
                    ("url", VStr "https://github.com/acme/widgets/blob/main/README.md")]]
    /\ Forall (has_fields ["name"; "path"; "type"; "url"]) rs.
Proof.
  apply (@list_repository_contents_always_list Fake.github Fake.widgets
           "acme/widgets" "README.md" (Some "main") (SingleFile Fake.readme));
    reflexivity.
Defined.

Example list_repository_contents_root :
  outcome (list_repository_contents (Some Fake.github) "acme/widgets" ""
             (Some "main"))
  = inl (VList [VDict [("name", VStr "README.md");
                       ("path", VStr "README.md");
                       ("type", VStr "file");
                       ("url", VStr "https://github.com/acme/widgets/blob/main/README.md")];
                VDict [("name", VStr "src");
                       ("path", VStr "src");
                       ("type", VStr "dir");
                       ("url", VStr "https://github.com/acme/widgets/tree/main/src")]]).
Proof. reflexivity. Qed.

(** C8.  When the path resolves to a directory listing,
    [get_file_content_from_repo] returns the Error payload
    "Path '<path>' is a directory, not a file." whatever the listing holds;
    no content record is built from it. *)
Theorem get_file_content_from_repo_directory (gh : Github) (repo : Repository)
    (name path : string) (ref : option string) (entries : list ContentFile) :
  github_get_repo gh name = inl repo ->
  repo_get_contents repo path ref = inl (Directory entries) ->
  outcome (get_file_content_from_repo (Some gh) name path ref)
  = inl (VDict [("error", VStr ("Path '" ++ path ++ "' is a directory, not a file."))]).
Proof.
  intros Hrepo Hcontents. unfold get_file_content_from_repo.
  cbv [bind try_except remote ret outcome _get_repo_safe].
  rewrite Hrepo; simpl. rewrite Hcontents; simpl.
  reflexivity.
Qed.

Lemma get_file_content_from_repo_directory_witness :
  outcome (get_file_content_from_repo (Some Fake.github) "acme/widgets" "src"
             (Some "main"))
  = inl (VDict [("error", VStr "Path 'src' is a directory, not a file.")]).
Proof.
  apply (@get_file_content_from_repo_directory Fake.github Fake.widgets
           "acme/widgets" "src" (Some "main") [Fake.src_file]);
    reflexivity.
Defined.

Example get_file_content_from_repo_readme :
  outcome (get_file_content_from_repo (Some Fake.github) "acme/widgets" "README.md"
             (Some "main"))
  = inl (VDict [("content", VStr "hello"); ("encoding", VStr "base64");
                ("sha", VStr "3b18e512dba79e4c8300dd08aeb37f8e728b8dad")]).
Proof. reflexivity. Qed.

(** ** create_or_update_file *)

(** C5, as amended.  Once the repository is resolved, the handler makes
    exactly one more remote call, chosen by the [sha] argument alone: the
    update-file mutation with that sha when [sha] is a non-empty string, the
    create-file mutation when [sha] is absent or the empty string.  No read
    of the existing file comes before it. *)
Theorem create_or_update_file_discriminator (gh : Github) (repo : Repository)
    (name path message content : string) (branch sha : option string) :
  github_get_repo gh name = inl repo ->
  log_of (create_or_update_file (Some gh) name path message content branch sha)
  = [Github_get_repo name;
     match sha with
     | Some (String c s) =>
         Repository_update_file path message content (String c s) branch
     | Some EmptyString | None =>
         Repository_create_file path message content branch
     end].
Proof.
  intros Hrepo. unfold create_or_update_file.
  cbv [bind try_except remote ret log_of _get_repo_safe if_str].
  rewrite Hrepo; simpl.
  destruct sha as [[|c s]|]; simpl.
  - destruct (repo_create_file repo path message content branch); reflexivity.
  - destruct (repo_update_file repo path message content (String c s) branch);
      reflexivity.
  - destruct (repo_create_file repo path message content branch); reflexivity.
Qed.

Lemma create_or_update_file_discriminator_witness :
  log_of (create_or_update_file (Some Fake.github) "acme/widgets" "README.md"
            "update readme" "hi" (Some "main")
            (Some "3b18e512dba79e4c8300dd08aeb37f8e728b8dad"))
  = [Github_get_repo "acme/widgets";
     Repository_update_file "README.md" "update readme" "hi"
       "3b18e512dba79e4c8300dd08aeb37f8e728b8dad" (Some "main")].
Proof.
  apply (@create_or_update_file_discriminator Fake.github Fake.widgets
           "acme/widgets" "README.md" "update readme" "hi" (Some "main")
           (Some "3b18e512dba79e4c8300dd08aeb37f8e728b8dad")).
  reflexivity.
Defined.

(** A [sha] argument that is present but empty selects the create-file
    mutation, in a repository that resolves: presence alone does not select
    the update. *)
Lemma create_or_update_file_empty_sha_counterexample :
  ~ (forall (gh : Github) (repo : Repository) (name path message content : string)
            (branch : option string) (sha : string),
        github_get_repo gh name = inl repo ->
        existsb is_update_file
          (log_of (create_or_update_file (Some gh) name path message content
                     branch (Some sha)))
        = true).
Proof.
  intros H.
  specialize (H Fake.github Fake.widgets "acme/widgets" "README.md" "m" "hi"
                (Some "main") "" eq_refl).
  discriminate H.
Qed.

(** ** list_issues *)

(** The record built for an issue. *)
Lemma issue_record_eq (issue : Issue) :
  issue_record issue
  = VDict [("title", VStr (issue_title issue));
           ("number", VInt (issue_number issue));
           ("url", VStr (issue_html_url issue));
           ("state", VStr (issue_state issue));
           ("created_at", VStr (isoformat (issue_created_at issue)));
           ("assignees",
            VList (map (fun a => VStr (user_login a)) (issue_assignees issue)))].
Proof. unfold issue_record. destruct (issue_assignees issue); reflexivity. Qed.

(** C6, as amended.  Let the repository resolve.  When
    [assignee_username] is a non-empty string, the user is looked up before
    the enumeration and passed to it as the [assignee] filter next to
    [state]; when it is absent or empty, [state] is the only filter.  The
    issues the platform enumerates under these filters are not filtered
    again: for [0 <= limit] and at least [limit] issues enumerated, the
    result is the records of the first [limit] of them, in the enumeration's
    order, so exactly [limit] records.  A record holds the issue's title,
    number, url, state, ISO creation time and the logins of its assignees
    under the fields title, number, url, state, created_at, assignees. *)
Theorem list_issues_first_limit (gh : Github) (repo : Repository)
    (name state : string) (limit : Z) (assignee_username : option string)
    (lookup : list Call) (filters : list (string * kwarg)) (issues : list Issue) :
  github_get_repo gh name = inl repo ->
  match assignee_username with
  | Some (String c s) =>
      exists u, github_get_user gh (String c s) = inl u
                /\ lookup = [Github_get_user (String c s)]
                /\ filters = [("state", KwStr state); ("assignee", KwUser u)]
  | Some EmptyString | None =>
      lookup = [] /\ filters = [("state", KwStr state)]
  end ->
  repo_get_issues repo filters = inl issues ->
  0 <= limit <= Z.of_nat (List.length issues) ->
  exists rs,
    list_issues (Some gh) name state limit assignee_username
    = ([Github_get_repo name] ++ lookup ++ [Repository_get_issues filters],
       inl (VList rs))
    /\ rs = map (fun issue =>
                  VDict [("title", VStr (issue_title issue));
                         ("number", VInt (issue_number issue));
                         ("url", VStr (issue_html_url issue));
                         ("state", VStr (issue_state issue));
                         ("created_at", VStr (isoformat (issue_created_at issue)));
                         ("assignees",
                          VList (map (fun a => VStr (user_login a))
                                   (issue_assignees issue)))])
           (firstn (Z.to_nat limit) issues)
    /\ Z.of_nat (List.length rs) = limit
    /\ Forall (has_fields ["title"; "number"; "url"; "state"; "created_at";
                           "assignees"]) rs.
Proof.
  intros Hrepo Hwho Hissues Hlimit.
  rewrite <- (map_ext _ _ issue_record_eq).
  exists (map issue_record (firstn (Z.to_nat limit) issues)).
  repeat split.
  - unfold list_issues.
    cbv [bind try_except remote ret _get_repo_safe g_attr if_str].
    rewrite Hrepo; simpl.
    destruct assignee_username as [[|c s]|].
    + destruct Hwho as [-> ->]. simpl. rewrite Hissues; simpl.
      now rewrite for_enumerate_append.
    + destruct Hwho as (u & Hu & -> & ->). rewrite Hu; simpl.
      rewrite Hissues; simpl. now rewrite for_enumerate_append.
    + destruct Hwho as [-> ->]. simpl. rewrite Hissues; simpl.
      now rewrite for_enumerate_append.
  - rewrite length_map, List.length_firstn. lia.
  - apply Forall_map_fields, issue_record_fields.
Qed.

Lemma list_issues_first_limit_witness :
  exists rs,
    list_issues (Some Fake.github) "acme/widgets" "open" 2 (Some "octocat")
    = ([Github_get_repo "acme/widgets"] ++ [Github_get_user "octocat"]
       ++ [Repository_get_issues
             [("state", KwStr "open"); ("assignee", KwUser Fake.octocat)]],
       inl (VList rs))
    /\ rs = map (fun issue =>
                  VDict [("title", VStr (issue_title issue));
                         ("number", VInt (issue_number issue));
                         ("url", VStr (issue_html_url issue));
                         ("state", VStr (issue_state issue));
                         ("created_at", VStr (isoformat (issue_created_at issue)));
                         ("assignees",
                          VList (map (fun a => VStr (user_login a))
                                   (issue_assignees issue)))])
           (firstn (Z.to_nat 2) Fake.issues)
    /\ Z.of_nat (List.length rs) = 2
    /\ Forall (has_fields ["title"; "number"; "url"; "state"; "created_at";
                           "assignees"]) rs.
Proof.
  apply (@list_issues_first_limit Fake.github Fake.widgets "acme/widgets" "open" 2
           (Some "octocat") [Github_get_user "octocat"]
           [("state", KwStr "open"); ("assignee", KwUser Fake.octocat)]
           Fake.issues).
  - reflexivity.
  - exists Fake.octocat. repeat split.
  - reflexivity.
  - simpl. lia.
Defined.

(** Two inputs on which the statement without these provisos fails: a
    negative limit, for which no record is returned although the repository
    enumerates more than [limit] issues, and an assignee given as the empty
    string, which is not looked up. *)
Lemma list_issues_counterexample :
  ~ (forall (gh : Github) (repo : Repository) (name state : string) (limit : Z)
            (issues : list Issue) (rs : list value),
        github_get_repo gh name = inl repo ->
        repo_get_issues repo [("state", KwStr state)] = inl issues ->
        limit <= Z.of_nat (List.length issues) ->
        outcome (list_issues (Some gh) name state limit None) = inl (VList rs) ->
        Z.of_nat (List.length rs) = limit)
  /\ ~ (forall (gh : Github) (repo : Repository) (name state : string) (limit : Z)
               (username : string),
           github_get_repo gh name = inl repo ->
           In (Github_get_user username)
             (log_of (list_issues (Some gh) name state limit (Some username)))).
Proof.
  split; intros H.
  - specialize (H Fake.github Fake.widgets "acme/widgets" "open" (-1)
                  Fake.issues [] eq_refl eq_refl).
    simpl in H. specialize (H ltac:(lia) eq_refl). discriminate H.
  - specialize (H Fake.github Fake.widgets "acme/widgets" "open" 2 "" eq_refl).
    simpl in H. destruct H as [H|[H|[]]]; discriminate H.
Qed.

(** ** create_github_issue *)

(** C10, as amended.  When [assignee_username] is a non-empty string and
    the platform cannot resolve that user, [create_github_issue] returns an
    Error payload and makes no mutation call: the issue creation is never
    invoked, whether or not the client is configured and the repository
    found. *)
Theorem create_github_issue_unresolved_assignee (g : option Github)
    (name title body username : string) (labels : option (list string)) :
  username <> "" ->
  (forall gh, g = Some gh -> exists e, github_get_user gh username = inr e) ->
  let run := create_github_issue g name title body (Some username) labels in
  returned_error (outcome run)
  /\ existsb is_create_issue (log_of run) = false
  /\ no_mutation (log_of run).
Proof.
  intros Hname Hunknown run. subst run. unfold create_github_issue.
  destruct username as [|c s]; [congruence|].
  destruct g as [gh|].
  - destruct (Hunknown gh eq_refl) as [e He].
    cbv [bind try_except remote ret raise outcome log_of _get_repo_safe g_attr
         if_str].
    destruct (github_get_repo gh name) as [repo|e']; simpl.
    + rewrite He; simpl. repeat split. eexists; reflexivity.
    + repeat split. eexists; reflexivity.
  - repeat split. eexists; reflexivity.
Qed.

Lemma create_github_issue_unresolved_assignee_witness :
  let run := create_github_issue (Some Fake.github) "acme/widgets" "Bug" ""
               (Some "ghost") None in
  returned_error (outcome run)
  /\ existsb is_create_issue (log_of run) = false
  /\ no_mutation (log_of run).
Proof.
  apply (@create_github_issue_unresolved_assignee (Some Fake.github)
           "acme/widgets" "Bug" "" "ghost" None).
  - discriminate.
  - intros gh [= <-]. exists Fake.not_found. reflexivity.
Defined.

Example create_github_issue_unresolved_assignee_run :
  create_github_issue (Some Fake.github) "acme/widgets" "Bug" "" (Some "ghost") None
  = ([Github_get_repo "acme/widgets"; Github_get_user "ghost"],
     inl (error_payload "404 {'message': 'Not Found'}")).
Proof. reflexivity. Qed.

(** An assignee given as the empty string is not looked up at all: the
    platform has no such user, and the issue is created all the same, with
    no assignee. *)
Lemma create_github_issue_empty_assignee_counterexample :
  ~ (forall (g : option Github) (name title body username : string)
            (labels : option (list string)),
        (forall gh, g = Some gh -> exists e, github_get_user gh username = inr e) ->
        let run := create_github_issue g name title body (Some username) labels in
        returned_error (outcome run)
        /\ existsb is_create_issue (log_of run) = false).
Proof.
  intros H.
  destruct (H (Some Fake.github) "acme/widgets" "Bug" "" "" None) as [_ Hlog].
  - intros gh [= <-]. exists Fake.not_found. reflexivity.
  - discriminate Hlog.
Qed.

Example create_github_issue_empty_assignee_run :
  create_github_issue (Some Fake.github) "acme/widgets" "Bug" "" (Some "") None
  = ([Github_get_repo "acme/widgets"; Repository_create_issue "Bug" "" [] []],
     inl (VDict [("message", VStr "Issue created successfully!");
                 ("title", VStr "Bug"); ("number", VInt 6);
                 ("url", VStr "https://github.com/acme/widgets/issues/6")])).
Proof. reflexivity. Qed.

(** * Further properties of the handlers *)

Ltac unfold_tools :=
  cbv [invoke list_issues create_github_issue get_pull_request_summary
       list_branches get_file_content_from_repo create_or_update_file
       create_pull_request merge_pull_request add_pull_request_review_comment
       request_pull_request_review list_repository_contents delete_file
       list_releases create_release list_workflows trigger_workflow
       list_labels create_label get_user_profile list_org_members create_gist
       get_gist_content
       decoded_content_utf8 merge_call create_review_comment_call
       bind try_except remote ret raise outcome log_of _get_repo_safe g_attr
       g_no_attr if_str ValueError_or_GithubException is_ValueError
       is_GithubException orb].

(** ** Start-up *)

(** X1.  Start-up leaves a client exactly when the token is a non-empty
    string and the authenticated look-up made with it succeeds; the client
    is then the one built for that token. *)
Theorem initialize_client_iff (github_token : option string)
    (Github_ : string -> Github) (probe : Github -> string + exn) (gh : Github) :
  fst (initialize github_token Github_ probe) = Some gh
  <-> exists token login,
        github_token = Some token /\ token <> ""
        /\ probe (Github_ token) = inl login /\ gh = Github_ token.
Proof.
  unfold initialize, if_str. split.
  - destruct github_token as [[|c s]|]; simpl; try discriminate.
    destruct (probe (Github_ (String c s))) as [login|e] eqn:Hprobe; simpl;
      try discriminate.
    intros [= <-]. exists (String c s), login. repeat split; trivial. discriminate.
  - intros (token & login & -> & Hne & Hprobe & ->).
    destruct token as [|c s]; [congruence|]. now rewrite Hprobe.
Qed.

(** X2.  Without a client no tool reaches the platform: the call log of
    every one of the tools is empty. *)
Theorem no_remote_call_without_client (c : ToolCall) :
  log_of (invoke None c) = [].
Proof. destruct c; reflexivity. Qed.

(** X3.  When start-up fails, for a token that is absent, empty or refused
    by the look-up, every tool that goes through the resolver returns an
    Error payload, and nothing is sent to the platform. *)
Theorem failed_start_up_disables_resolver_tools (github_token : option string)
    (Github_ : string -> Github) (probe : Github -> string + exn) (c : ToolCall) :
  match github_token with
  | Some (String ch s) => exists e, probe (Github_ (String ch s)) = inr e
  | Some EmptyString | None => True
  end ->
  uses_resolver c = true ->
  let run := invoke (fst (initialize github_token Github_ probe)) c in
  log_of run = [] /\ returned_error (outcome run).
Proof.
  intros Htoken Hc run. subst run.
  assert (Hg : fst (initialize github_token Github_ probe) = None).
  { unfold initialize, if_str. destruct github_token as [[|ch s]|]; trivial.
    destruct Htoken as [e ->]. reflexivity. }
  rewrite Hg. destruct (resolver_tools_unconfigured c Hc) as [prefix ->].
  split; [reflexivity|]. eexists; reflexivity.
Qed.

Lemma failed_start_up_disables_resolver_tools_witness :
  let run := invoke (fst (initialize (Some "expired") (fun _ => Fake.github)
                            (fun _ => inr (GithubException Fake.not_found))))
               (tool_list_labels "acme/widgets" 10) in
  log_of run = [] /\ returned_error (outcome run).
Proof.
  apply (@failed_start_up_disables_resolver_tools (Some "expired")
           (fun _ => Fake.github)
           (fun _ => inr (GithubException Fake.not_found))
           (tool_list_labels "acme/widgets" 10)).
  - exists (GithubException Fake.not_found). reflexivity.
  - reflexivity.
Defined.

(** ** All tools *)

(** X4.  Whatever a tool returns is what its docstring promises or the
    Error payload: the record or list of records with the fields the
    docstring names, or a dict where it promises no more.  [get_gist_content]
    is the exception: its success value is the record with the fields id,
    description, public, files, not the mapping from file names to contents
    of its docstring.  No handler lets an exception its [except] clause
    names escape: a [GithubException] never leaves a tool, nor a [ValueError]
    a tool that goes through the resolver. *)
Theorem tools_return_documented_or_error (g : option Github) (c : ToolCall) :
  (forall v,
      outcome (invoke g c) = inl v ->
      is_error v
      \/ match c with
         | tool_get_gist_content _ =>
             has_fields ["id"; "description"; "public"; "files"] v
         | _ => has_schema (documented c) v
         end)
  /\ (forall e,
         outcome (invoke g c) = inr e ->
         is_GithubException e = false
         /\ (uses_resolver c = true -> is_ValueError e = false)).
Proof.
  split.
  - destruct c; destruct g as [gh|]; unfold_tools; simpl; platform_cases;
      intros v Hv; try discriminate Hv; injection Hv as <-;
      first [ left; eexists; reflexivity
            | right; eexists; reflexivity
            | right; eexists; split; reflexivity
            | right; eexists; split; [reflexivity|];
              first [ apply capped_records | apply capped_filtered_records
                    | apply each_record | repeat constructor ];
              intros; eexists; split; reflexivity ].
  - destruct c; destruct g as [gh|]; unfold_tools; simpl; platform_cases;
      intros e He; try discriminate He; injection He as <-;
      split; try reflexivity; intros Hc; try reflexivity; discriminate Hc.
Qed.

(** X5.  The tools named list_... and get_... never call a mutation of the
    platform, whatever the client answers. *)
Theorem read_only_tools_never_mutate (g : option Github) (c : ToolCall) :
  is_read_only c = true -> no_mutation (log_of (invoke g c)).
Proof.
  intros Hc. unfold no_mutation.
  destruct c; try discriminate Hc; clear Hc;
    (destruct g as [gh|]; [|reflexivity]);
    unfold_tools; simpl; platform_cases; reflexivity.
Qed.

Lemma read_only_tools_never_mutate_witness :
  no_mutation (log_of (invoke (Some Staging.github)
                         (tool_list_org_members "acme" 5))).
Proof.
  apply (@read_only_tools_never_mutate (Some Staging.github)
           (tool_list_org_members "acme" 5)).
  reflexivity.
Defined.

(** X6.  No tool calls the platform again after a mutation: in every call
    log only the last call may be a mutation, so a tool makes one mutation
    at most. *)
Theorem mutation_is_last_call (g : option Github) (c : ToolCall) :
  mutation_only_last (log_of (invoke g c)) = true.
Proof.
  destruct c; (destruct g as [gh|]; [|reflexivity]);
    unfold_tools; simpl; platform_cases; reflexivity.
Qed.

(** ** Resolution failures *)

Lemma append_empty_r (s : string) : (s ++ "")%string = s.
Proof. induction s as [|c s IH]; simpl; [reflexivity | now rewrite IH]. Qed.

Lemma append_assoc_r (a b c : string) :
  ((a ++ b) ++ c)%string = (a ++ (b ++ c))%string.
Proof. induction a as [|x a IH]; simpl; [reflexivity | now rewrite IH]. Qed.

(** X7.  When the platform does not find the repository, every tool that
    takes a repository stops there: the look-up is its only remote call, and
    it returns an Error payload whose message holds the resolver's text with
    the repository name and the platform's diagnostic. *)
Theorem repository_not_found_short_circuits (gh : Github) (c : ToolCall)
    (name : string) (e : GithubError) :
  repository_of c = Some name ->
  github_get_repo gh name = inr e ->
  exists prefix suffix,
    invoke (Some gh) c
    = ([Github_get_repo name],
       inl (error_payload
              (prefix ++ "Could not find repository '" ++ name ++ "'. Error: "
               ++ gh_data e ++ suffix))).
Proof.
  intros Hname Hrepo.
  destruct c; simpl in Hname; try discriminate Hname;
    injection Hname as ->.
  all: cbv [invoke list_issues create_github_issue get_pull_request_summary
       list_branches get_file_content_from_repo create_or_update_file
       create_pull_request merge_pull_request add_pull_request_review_comment
       request_pull_request_review list_repository_contents delete_file
       list_releases create_release list_workflows trigger_workflow
       list_labels create_label
       bind try_except remote ret raise _get_repo_safe
       ValueError_or_GithubException is_ValueError is_GithubException
       orb str_exn exn_data app].
  all: rewrite Hrepo; cbv iota beta.
  all: first
    [ exists "", ""; rewrite append_empty_r; reflexivity
    | match goal with
      | |- exists _ _, (_, inl (error_payload (?p ++ (_ ++ _) ++ ?s))) = _ =>
          exists p, s; rewrite !append_assoc_r; reflexivity
      | |- exists _ _, (_, inl (error_payload (?p ++ _))) = _ =>
          exists p, ""; rewrite append_empty_r; reflexivity
      end ].
Qed.

Lemma repository_not_found_short_circuits_witness :
  exists prefix suffix,
    invoke (Some Fake.github) (tool_delete_file "acme/nothing" "a.txt" "rm" "123" None)
    = ([Github_get_repo "acme/nothing"],
       inl (error_payload
              (prefix ++ "Could not find repository '" ++ "acme/nothing"
               ++ "'. Error: " ++ gh_data Fake.not_found ++ suffix))).
Proof.
  apply (@repository_not_found_short_circuits Fake.github
           (tool_delete_file "acme/nothing" "a.txt" "rm" "123" None)
           "acme/nothing" Fake.not_found);
    reflexivity.
Defined.

(** X8.  The resolver raises nothing but [ValueError]: a failure of the
    platform is turned into one, and the look-up is the only call made. *)
Theorem _get_repo_safe_raises_ValueError (g : option Github) (name : string)
    (e : exn) :
  outcome (_get_repo_safe g name) = inr e ->
  (exists msg, e = ValueError msg)
  /\ (List.length (log_of (_get_repo_safe g name)) <= 1)%nat.
Proof.
  unfold _get_repo_safe, try_except, remote, raise, outcome, log_of.
  destruct g as [gh|]; simpl.
  - destruct (github_get_repo gh name) as [repo|ge]; simpl; [discriminate|].
    intros [= <-]. split; [eexists; reflexivity | lia].
  - intros [= <-]. split; [eexists; reflexivity | lia].
Qed.

Lemma _get_repo_safe_raises_ValueError_witness :
  (exists msg,
      ValueError "Could not find repository 'acme/nothing'. Error: {'message': 'Not Found'}"
      = ValueError msg)
  /\ (List.length (log_of (_get_repo_safe (Some Fake.github) "acme/nothing")) <= 1)%nat.
Proof.
  apply (@_get_repo_safe_raises_ValueError (Some Fake.github) "acme/nothing").
  reflexivity.
Defined.

(** ** The list tools, for any limit *)

Lemma firstn_prefix {A} (n m : nat) (xs : list A) :
  (n <= m)%nat -> exists more, firstn m xs = firstn n xs ++ more.
Proof.
  revert m xs. induction n as [|n IH]; intros m xs Hle; simpl.
  - eexists; reflexivity.
  - destruct m as [|m]; [lia|]. destruct xs as [|x xs]; simpl.
    + exists []; reflexivity.
    + destruct (IH m xs ltac:(lia)) as [more ->]. exists more; reflexivity.
Qed.

Lemma capped_prefix_filter {A} (a b : Z) (p : A -> bool) (f : A -> value)
    (xs : list A) :
  a <= b ->
  exists more,
    for_enumerate b (fun x rs => if p x then append (f x) rs else rs) 0 xs []
    = for_enumerate a (fun x rs => if p x then append (f x) rs else rs) 0 xs []
      ++ more.
Proof.
  intros Hle. rewrite !for_enumerate_filter.
  destruct (@firstn_prefix A (Z.to_nat a) (Z.to_nat b) xs ltac:(lia)) as [more ->].
  rewrite filter_app, map_app. eexists; reflexivity.
Qed.

Lemma capped_prefix_append {A} (a b : Z) (f : A -> value) (xs : list A) :
  a <= b ->
  exists more,
    for_enumerate b (fun x rs => append (f x) rs) 0 xs []
    = for_enumerate a (fun x rs => append (f x) rs) 0 xs [] ++ more.
Proof.
  intros Hle. rewrite !for_enumerate_append.
  destruct (@firstn_prefix A (Z.to_nat a) (Z.to_nat b) xs ltac:(lia)) as [more ->].
  rewrite map_app. eexists; reflexivity.
Qed.

(** X9.  Raising the limit only adds records at the end: for the same
    client and arguments, the list returned under a limit is a prefix of the
    list returned under any larger limit. *)
Theorem list_tools_prefix_monotone (g : option Github) (t : ListTool)
    (name : string) (a b : Z) (rs_a rs_b : list value) :
  a <= b ->
  outcome (run_list_tool g t name a) = inl (VList rs_a) ->
  outcome (run_list_tool g t name b) = inl (VList rs_b) ->
  exists more, rs_b = rs_a ++ more.
Proof.
  intros Hle. revert rs_a rs_b.
  destruct t; (destruct g as [gh|]; [|discriminate]);
    unfold run_list_tool; unfold_tools; simpl; platform_cases;
    intros rs_a rs_b Ha Hb; try discriminate Ha;
    injection Ha as <-; injection Hb as <-;
    first [ now apply capped_prefix_append | now apply capped_prefix_filter ].
Qed.

Lemma list_tools_prefix_monotone_witness :
  exists more,
    map release_record [Staging.v2; Staging.v1; Staging.v3_draft]
    = map release_record [Staging.v2] ++ more.
Proof.
  apply (@list_tools_prefix_monotone (Some Staging.github) ListReleases
           "acme/gadgets" 1 5);
    [lia | reflexivity | reflexivity].
Defined.

Lemma length_firstn_min {A} (limit : Z) (xs : list A) :
  Z.of_nat (List.length (firstn (Z.to_nat limit) xs))
  = Z.min (Z.max 0 limit) (Z.of_nat (List.length xs)).
Proof. rewrite List.length_firstn. lia. Qed.

(** X10.  For an enumeration of releases [list_releases] makes the two
    look-ups and returns the records of the first [limit] releases in the
    platform's order, all of them when there are fewer: their number is
    [min (max 0 limit) n].  A release that was never published is reported
    with [published_at] set to [None]. *)
Theorem list_releases_returns (gh : Github) (repo : Repository) (name : string)
    (limit : Z) (releases : list GitRelease) :
  github_get_repo gh name = inl repo ->
  repo_get_releases repo = inl releases ->
  exists rs,
    list_releases (Some gh) name limit
    = ([Github_get_repo name; Repository_get_releases], inl (VList rs))
    /\ rs = map (fun release =>
                  VDict [("tag_name", VStr (release_tag_name release));
                         ("name", VStr (release_title release));
                         ("url", VStr (release_html_url release));
                         ("created_at", VStr (isoformat (release_created_at release)));
                         ("published_at",
                          match release_published_at release with
                          | Some d => VStr (isoformat d)
                          | None => VNone
                          end);
                         ("prerelease", VBool (release_prerelease release));
                         ("draft", VBool (release_draft release))])
           (firstn (Z.to_nat limit) releases)
    /\ Z.of_nat (List.length rs)
       = Z.min (Z.max 0 limit) (Z.of_nat (List.length releases))
    /\ (forall r d, release_published_at r = None ->
                    release_record r = VDict d -> In ("published_at", VNone) d).
Proof.
  intros Hrepo Hreleases. eexists; repeat split.
  - unfold_tools. rewrite Hrepo; simpl. rewrite Hreleases; simpl.
    now rewrite for_enumerate_append.
  - rewrite length_map. apply length_firstn_min.
  - intros r d Hnone. unfold release_record. rewrite Hnone.
    intros [= <-]. simpl. tauto.
Qed.

Lemma list_releases_returns_witness :
  exists rs,
    list_releases (Some Staging.github) "acme/gadgets" 5
    = ([Github_get_repo "acme/gadgets"; Repository_get_releases], inl (VList rs))
    /\ rs = map release_record
              (firstn (Z.to_nat 5) [Staging.v2; Staging.v1; Staging.v3_draft])
    /\ Z.of_nat (List.length rs)
       = Z.min (Z.max 0 5)
           (Z.of_nat (List.length [Staging.v2; Staging.v1; Staging.v3_draft]))
    /\ (forall r d, release_published_at r = None ->
                    release_record r = VDict d -> In ("published_at", VNone) d).
Proof.
  apply (@list_releases_returns Staging.github Staging.gadgets "acme/gadgets" 5
           [Staging.v2; Staging.v1; Staging.v3_draft]);
    reflexivity.
Defined.

(** X11.  [list_workflows] returns the records of the first [limit]
    workflows in the platform's order, all of them when there are fewer, and
    makes no call beyond the two look-ups. *)
Theorem list_workflows_returns (gh : Github) (repo : Repository) (name : string)
    (limit : Z) (workflows : list Workflow) :
  github_get_repo gh name = inl repo ->
  repo_get_workflows repo = inl workflows ->
  exists rs,
    list_workflows (Some gh) name limit
    = ([Github_get_repo name; Repository_get_workflows], inl (VList rs))
    /\ rs = map (fun workflow =>
                  VDict [("name", VStr (workflow_name workflow));
                         ("id", VInt (workflow_id workflow));
                         ("state", VStr (workflow_state workflow));
                         ("path", VStr (workflow_path workflow));
                         ("url", VStr (workflow_html_url workflow))])
           (firstn (Z.to_nat limit) workflows)
    /\ Z.of_nat (List.length rs)
       = Z.min (Z.max 0 limit) (Z.of_nat (List.length workflows)).
Proof.
  intros Hrepo Hworkflows. eexists; repeat split.
  - unfold_tools. rewrite Hrepo; simpl. rewrite Hworkflows; simpl.
    now rewrite for_enumerate_append.
  - rewrite length_map. apply length_firstn_min.
Qed.

Lemma list_workflows_returns_witness :
  exists rs,
    list_workflows (Some Staging.github) "acme/gadgets" 1
    = ([Github_get_repo "acme/gadgets"; Repository_get_workflows], inl (VList rs))
    /\ rs = map workflow_record
              (firstn (Z.to_nat 1) [Staging.build; Staging.deploy])
    /\ Z.of_nat (List.length rs)
       = Z.min (Z.max 0 1) (Z.of_nat (List.length [Staging.build; Staging.deploy])).
Proof.
  apply (@list_workflows_returns Staging.github Staging.gadgets "acme/gadgets" 1
           [Staging.build; Staging.deploy]);
    reflexivity.
Defined.

(** X12.  [list_labels] returns the records of the first [limit] labels in
    the platform's order, all of them when there are fewer; a label without
    description keeps [None] there. *)
Theorem list_labels_returns (gh : Github) (repo : Repository) (name : string)
    (limit : Z) (labels : list Label) :
  github_get_repo gh name = inl repo ->
  repo_get_labels repo = inl labels ->
  exists rs,
    list_labels (Some gh) name limit
    = ([Github_get_repo name; Repository_get_labels], inl (VList rs))
    /\ rs = map (fun label =>
                  VDict [("name", VStr (label_name label));
                         ("color", VStr (label_color label));
                         ("description",
                          match label_description label with
                          | Some text => VStr text
                          | None => VNone
                          end)])
           (firstn (Z.to_nat limit) labels)
    /\ Z.of_nat (List.length rs)
       = Z.min (Z.max 0 limit) (Z.of_nat (List.length labels)).
Proof.
  intros Hrepo Hlabels. eexists; repeat split.
  - unfold_tools. rewrite Hrepo; simpl. rewrite Hlabels; simpl.
    now rewrite for_enumerate_append.
  - rewrite length_map. apply length_firstn_min.
Qed.

Lemma list_labels_returns_witness :
  exists rs,
    list_labels (Some Staging.github) "acme/gadgets" 2
    = ([Github_get_repo "acme/gadgets"; Repository_get_labels], inl (VList rs))
    /\ rs = map label_record
              (firstn (Z.to_nat 2) [Staging.bug; Staging.docs; Staging.wontfix])
    /\ Z.of_nat (List.length rs)
       = Z.min (Z.max 0 2)
           (Z.of_nat (List.length [Staging.bug; Staging.docs; Staging.wontfix])).
Proof.
  apply (@list_labels_returns Staging.github Staging.gadgets "acme/gadgets" 2
           [Staging.bug; Staging.docs; Staging.wontfix]);
    reflexivity.
Defined.

(** X13.  With a client, [list_org_members] looks the organization up and
    then its members.  When both answer, it returns the records of the first
    [limit] members, all of them when there are fewer; when the organization
    is not found the member enumeration is not asked for; in both failure
    cases the Error payload names the organization. *)
Theorem list_org_members_returns (gh : Github) (org_name : string) (limit : Z) :
  list_org_members (Some gh) org_name limit
  = match github_get_organization gh org_name with
    | inl org =>
        ([Github_get_organization org_name; Organization_get_members],
         match org_get_members org with
         | inl members =>
             inl (VList (map (fun member =>
                                VDict [("login", VStr (user_login member));
                                       ("id", VInt (user_id member));
                                       ("url", VStr (user_html_url member))])
                           (firstn (Z.to_nat limit) members)))
         | inr e =>
             inl (error_payload
                    ("Could not list organization members for '" ++ org_name
                     ++ "'. Error: " ++ gh_str e))
         end)
    | inr e =>
        ([Github_get_organization org_name],
         inl (error_payload
                ("Could not list organization members for '" ++ org_name
                 ++ "'. Error: " ++ gh_str e)))
    end.
Proof.
  unfold_tools.
  destruct (github_get_organization gh org_name) as [org|e]; simpl; trivial.
  destruct (org_get_members org) as [members|e]; simpl; trivial.
  now rewrite for_enumerate_append.
Qed.



(** ** Single resources and mutations *)

(** X15.  For a path that resolves to a single file served base64-encoded,
    [get_file_content_from_repo] returns the decoded text with the file's
    encoding and sha; when the bytes are not valid UTF-8 the decoding error,
    a [ValueError], is caught and returned as an Error payload.  For a file
    served under another encoding the library's assertion fails, and the
    [AssertionError] leaves the tool uncaught. *)
Theorem get_file_content_from_repo_file (gh : Github) (repo : Repository)
    (name path : string) (ref : option string) (f : ContentFile) :
  github_get_repo gh name = inl repo ->
  repo_get_contents repo path ref = inl (SingleFile f) ->
  let run := get_file_content_from_repo (Some gh) name path ref in
  log_of run = [Github_get_repo name; Repository_get_contents path ref]
  /\ if (content_encoding f =? "base64")%string
     then outcome run
          = match content_decoded_utf8 f with
            | inl text =>
                inl (VDict [("content", VStr text);
                            ("encoding", VStr "base64");
                            ("sha", VStr (content_sha f))])
            | inr msg =>
                inl (VDict [("error",
                             VStr ("Could not retrieve file content. Check repo, path, or ref. Error: "
                                   ++ msg))])
            end
     else exists msg, outcome run = inr (AssertionError msg).
Proof.
  intros Hrepo Hcontents run. subst run. unfold_tools.
  rewrite Hrepo; simpl. rewrite Hcontents; simpl.
  destruct (String.eqb_spec (content_encoding f) "base64") as [Henc|Henc]; simpl.
  - rewrite Henc. destruct (content_decoded_utf8 f); split; reflexivity.
  - split; [reflexivity|]. eexists; reflexivity.
Qed.

Lemma get_file_content_from_repo_file_witness :
  let run := get_file_content_from_repo (Some Staging.github) "acme/gadgets"
               "logo.png" (Some "main") in
  log_of run
  = [Github_get_repo "acme/gadgets"; Repository_get_contents "logo.png" (Some "main")]
  /\ outcome run
     = inl (VDict [("error",
                    VStr ("Could not retrieve file content. Check repo, path, or ref. Error: "
                          ++ "'utf-8' codec can't decode byte 0x89 in position 0: invalid start byte"))]).
Proof.
  apply (@get_file_content_from_repo_file Staging.github Staging.gadgets
           "acme/gadgets" "logo.png" (Some "main") Staging.binary);
    reflexivity.
Defined.

Example get_file_content_from_repo_not_base64 :
  get_file_content_from_repo (Some Staging.github) "acme/gadgets" "dump.bin"
    (Some "main")
  = ([Github_get_repo "acme/gadgets"; Repository_get_contents "dump.bin" (Some "main")],
     inr (AssertionError "unsupported encoding: none")).
Proof. reflexivity. Qed.

(** X16.  For a pull request reported mergeable, [merge_pull_request] given
    a commit message and a sha invokes the merge once, with them and the
    merge method, after the two look-ups; it returns the merge result with
    the pull request's url, or the platform's failure as an Error payload.
    When the commit message or the sha is left at its default [None], the
    merge is not requested: the library's assertion on the argument fails
    and the [AssertionError] leaves the tool uncaught. *)
Theorem merge_pull_request_proceeds (gh : Github) (repo : Repository)
    (pr : PullRequest) (name : string) (n : Z) (commit_message sha : option string)
    (merge_method : string) :
  github_get_repo gh name = inl repo ->
  repo_get_pull repo n = inl pr ->
  pr_mergeable pr = Some true ->
  let run := merge_pull_request (Some gh) name n commit_message sha merge_method in
  match commit_message, sha with
  | Some message, Some head =>
      run
      = ([Github_get_repo name; Repository_get_pull n;
          PullRequest_merge (Some message) (Some head) merge_method],
         match pr_merge pr message head merge_method with
         | inl result =>
             inl (VDict [("message", VStr (merge_message result));
                         ("merged", VBool (merge_merged result));
                         ("sha", VStr (merge_sha result));
                         ("url", VStr (pr_html_url pr))])
         | inr e => inl (VDict [("error", VStr (gh_str e))])
         end)
  | _, _ =>
      log_of run = [Github_get_repo name; Repository_get_pull n]
      /\ exists msg, outcome run = inr (AssertionError msg)
  end.
Proof.
  intros Hrepo Hpr Hflag run. subst run. unfold_tools.
  rewrite Hrepo; simpl. rewrite Hpr; simpl. rewrite Hflag; simpl.
  destruct commit_message as [message|], sha as [head|]; simpl;
    try (split; [reflexivity | eexists; reflexivity]).
  destruct (pr_merge pr message head merge_method); reflexivity.
Qed.

Lemma merge_pull_request_proceeds_witness :
  merge_pull_request (Some Staging.github) "acme/gadgets" 7 (Some "Tune")
    (Some "0000000000000000000000000000000000000002") "squash"
  = ([Github_get_repo "acme/gadgets"; Repository_get_pull 7;
      PullRequest_merge (Some "Tune")
        (Some "0000000000000000000000000000000000000002") "squash"],
     inl (VDict [("message", VStr "Pull Request successfully merged");
                 ("merged", VBool true);
                 ("sha", VStr "0000000000000000000000000000000000000001");
                 ("url", VStr "https://github.com/acme/gadgets/pull/7")])).
Proof.
  apply (@merge_pull_request_proceeds Staging.github Staging.gadgets Staging.pull7
           "acme/gadgets" 7 (Some "Tune")
           (Some "0000000000000000000000000000000000000002") "squash");
    reflexivity.
Defined.

Example merge_pull_request_default_arguments :
  merge_pull_request (Some Staging.github) "acme/gadgets" 7 None None "merge"
  = ([Github_get_repo "acme/gadgets"; Repository_get_pull 7],
     inr (AssertionError "None")).
Proof. reflexivity. Qed.

(** X17.  [create_release] names the release after its tag when no name, or
    an empty name, is given, and passes the name given otherwise; the
    creation is its only call after the repository look-up. *)
Theorem create_release_default_name (gh : Github) (repo : Repository)
    (repo_name tag_name : string) (name body : option string)
    (draft prerelease : bool) (target_commitish : option string) :
  github_get_repo gh repo_name = inl repo ->
  log_of (create_release (Some gh) repo_name tag_name name body draft prerelease
            target_commitish)
  = [Github_get_repo repo_name;
     Repository_create_git_release tag_name
       match name with
       | Some (String c s) => String c s
       | Some EmptyString | None => tag_name
       end
       body draft prerelease target_commitish].
Proof.
  intros Hrepo. unfold_tools. rewrite Hrepo; simpl.
  destruct name as [[|c s]|]; simpl;
    match goal with
    | |- context [repo_create_git_release ?r ?a ?b ?c ?d ?e ?f] =>
        destruct (repo_create_git_release r a b c d e f)
    end; reflexivity.
Qed.

Lemma create_release_default_name_witness :
  log_of (create_release (Some Staging.github) "acme/gadgets" "v4.0" None
            (Some "Fourth release.") false false (Some "main"))
  = [Github_get_repo "acme/gadgets";
     Repository_create_git_release "v4.0" "v4.0" (Some "Fourth release.") false
       false (Some "main")].
Proof.
  apply (@create_release_default_name Staging.github Staging.gadgets
           "acme/gadgets" "v4.0" None (Some "Fourth release.") false false
           (Some "main")).
  reflexivity.
Defined.

(** X18.  When the assignee given resolves, [create_github_issue] creates
    the issue with exactly that user as assignee and with the labels given,
    or no label when none or an empty list is given; the record returned
    holds the title, number and url of the issue the platform created. *)
Theorem create_github_issue_assigns (gh : Github) (repo : Repository)
    (name title body username : string) (labels : option (list string))
    (u : NamedUser) (issue : Issue) :
  username <> "" ->
  github_get_repo gh name = inl repo ->
  github_get_user gh username = inl u ->
  repo_create_issue repo title body [u]
    match labels with Some l => l | None => [] end = inl issue ->
  create_github_issue (Some gh) name title body (Some username) labels
  = ([Github_get_repo name; Github_get_user username;
      Repository_create_issue title body [u]
        match labels with Some l => l | None => [] end],
     inl (VDict [("message", VStr "Issue created successfully!");
                 ("title", VStr (issue_title issue));
                 ("number", VInt (issue_number issue));
                 ("url", VStr (issue_html_url issue))])).
Proof.
  intros Hne Hrepo Huser Hissue.
  destruct username as [|c s]; [congruence|].
  unfold_tools. rewrite Hrepo; simpl. rewrite Huser; simpl.
  destruct labels as [[|l ls]|]; simpl in *; rewrite Hissue; reflexivity.
Qed.

Lemma create_github_issue_assigns_witness :
  create_github_issue (Some Staging.github) "acme/gadgets" "Squeak" "It squeaks."
    (Some "hubot") (Some ["bug"])
  = ([Github_get_repo "acme/gadgets"; Github_get_user "hubot";
      Repository_create_issue "Squeak" "It squeaks." [Staging.hubot] ["bug"]],
     inl (VDict [("message", VStr "Issue created successfully!");
                 ("title", VStr "Squeak");
                 ("number", VInt 12);
                 ("url", VStr "https://github.com/acme/gadgets/issues/12")])).
Proof.
  apply (@create_github_issue_assigns Staging.github Staging.gadgets "acme/gadgets"
           "Squeak" "It squeaks." "hubot" (Some ["bug"]) Staging.hubot
           (Staging.created_issue "Squeak"));
    [discriminate | reflexivity | reflexivity | reflexivity].
Defined.

(** X19.  [add_pull_request_review_comment] never creates a comment.  It
    looks up the pull request and the commit; when the commit does not
    resolve the failure is returned as an Error payload, and when it does
    the call of [create_review_comment] with the keyword [commit_id] raises
    a [TypeError], which leaves the tool uncaught.  In both cases the log
    holds the three look-ups and no mutation. *)
Theorem add_pull_request_review_comment_never_comments (gh : Github)
    (repo : Repository) (pr : PullRequest) (name : string) (n : Z)
    (body commit_id path : string) (position : Z) :
  github_get_repo gh name = inl repo ->
  repo_get_pull repo n = inl pr ->
  let run :=
    add_pull_request_review_comment (Some gh) name n body commit_id path position in
  log_of run
  = [Github_get_repo name; Repository_get_pull n; Repository_get_commit commit_id]
  /\ no_mutation (log_of run)
  /\ match repo_get_commit repo commit_id with
     | inr e => outcome run = inl (VDict [("error", VStr (gh_str e))])
     | inl _ => exists msg, outcome run = inr (TypeError msg)
     end.
Proof.
  intros Hrepo Hpr run. subst run. unfold no_mutation. unfold_tools.
  rewrite Hrepo; simpl. rewrite Hpr; simpl.
  destruct (repo_get_commit repo commit_id) as [commit|e]; simpl;
    repeat split. eexists; reflexivity.
Qed.

Lemma add_pull_request_review_comment_never_comments_witness :
  let run :=
    add_pull_request_review_comment (Some Staging.github) "acme/gadgets" 7 "Nit."
      "abc123" "gadget.py" 3 in
  log_of run
  = [Github_get_repo "acme/gadgets"; Repository_get_pull 7;
     Repository_get_commit "abc123"]
  /\ no_mutation (log_of run)
  /\ exists msg, outcome run = inr (TypeError msg).
Proof.
  apply (@add_pull_request_review_comment_never_comments Staging.github
           Staging.gadgets Staging.pull7 "acme/gadgets" 7 "Nit." "abc123"
           "gadget.py" 3);
    reflexivity.
Defined.

(** X20.  [trigger_workflow] looks the workflow up the same way for a
    numeric id and for a file name, and reports the dispatch as successful
    whenever the dispatch call does not raise: the boolean it answers with
    is not looked at. *)
Theorem trigger_workflow_ignores_dispatch_answer (gh : Github) (repo : Repository)
    (workflow : Workflow) (name : string) (workflow_id_or_name : Z + string)
    (ref : string) (inputs : option (list (string * value))) (accepted : bool) :
  github_get_repo gh name = inl repo ->
  repo_get_workflow repo workflow_id_or_name = inl workflow ->
  workflow_create_dispatch workflow ref inputs = inl accepted ->
  trigger_workflow (Some gh) name workflow_id_or_name ref inputs
  = ([Github_get_repo name; Repository_get_workflow workflow_id_or_name;
      Workflow_create_dispatch ref inputs],
     inl (VDict [("message",
                  VStr ("Workflow '"
                        ++ match workflow_id_or_name with
                           | inl id => str_int id
                           | inr file => file
                           end
                        ++ "' dispatched successfully on ref '" ++ ref ++ "'!"))])).
Proof.
  intros Hrepo Hworkflow Hdispatch. unfold_tools.
  rewrite Hrepo; simpl.
  destruct workflow_id_or_name as [id|file]; rewrite Hworkflow; simpl;
    rewrite Hdispatch; reflexivity.
Qed.

Lemma trigger_workflow_ignores_dispatch_answer_witness :
  trigger_workflow (Some Staging.github) "acme/gadgets" (inr "deploy.yml") "main"
    (Some [])
  = ([Github_get_repo "acme/gadgets"; Repository_get_workflow (inr "deploy.yml");
      Workflow_create_dispatch "main" (Some [])],
     inl (VDict [("message",
                  VStr "Workflow 'deploy.yml' dispatched successfully on ref 'main'!")])).
Proof.
  apply (@trigger_workflow_ignores_dispatch_answer Staging.github Staging.gadgets
           Staging.deploy "acme/gadgets" (inr "deploy.yml") "main" (Some []) false);
    reflexivity.
Defined.

(** ** Gists *)


(** X22.  For a gist the platform returns, [get_gist_content] reports each
    file of the gist under its name with its content, in the gist's order,
    beside the gist's id, description and visibility. *)
Theorem get_gist_content_files (gh : Github) (id : string) (gist : Gist) :
  github_get_gist gh id = inl gist ->
  get_gist_content (Some gh) id
  = ([Github_get_gist id],
     inl (VDict [("id", VStr (gist_id gist));
                 ("description", opt_str (gist_description gist));
                 ("public", VBool (gist_public gist));
                 ("files",
                  VDict (map (fun kv => (fst kv, VStr (gistfile_content (snd kv))))
                           (gist_files gist)))])).
Proof.
  intros Hgist. unfold_tools. rewrite Hgist; simpl.
  do 6 f_equal.
  assert (Hloop : forall (fs : list (string * GistFile))
                          (acc : list (string * value)),
             for_each (fun '(filename, file_obj) d =>
                         append (filename, VStr (gistfile_content file_obj)) d)
               fs acc
             = acc ++ map (fun kv => (fst kv, VStr (gistfile_content (snd kv)))) fs).
  { induction fs as [|[n f] fs IH]; intros acc; simpl.
    - now rewrite app_nil_r.
    - rewrite IH. unfold append. now rewrite <- app_assoc. }
  rewrite Hloop. reflexivity.
Qed.

Lemma get_gist_content_files_witness :
  get_gist_content (Some Staging.github) "g1"
  = ([Github_get_gist "g1"],
     inl (VDict [("id", VStr "g1");
                 ("description", opt_str (Some "two files"));
                 ("public", VBool true);
                 ("files",
                  VDict (map (fun kv => (fst kv, VStr (gistfile_content (snd kv))))
                           [("a.txt", mkGistFile "alpha");
                            ("b.txt", mkGistFile "beta")]))])).
Proof.
  apply (@get_gist_content_files Staging.github "g1" Staging.stored_gist).
  reflexivity.
Defined.

(** ** list_issues outside the exact-limit case *)

(** X23.  When the assignee given to [list_issues] is a non-empty name the
    platform cannot resolve, the issues are never enumerated: the call stops
    after the user look-up and returns the platform's failure as an Error
    payload. *)
Theorem list_issues_unresolved_assignee (gh : Github) (repo : Repository)
    (name state username : string) (limit : Z) (e : GithubError) :
  username <> "" ->
  github_get_repo gh name = inl repo ->
  github_get_user gh username = inr e ->
  list_issues (Some gh) name state limit (Some username)
  = ([Github_get_repo name; Github_get_user username],
     inl (error_payload (gh_str e))).
Proof.
  intros Hne Hrepo Huser. destruct username as [|c s]; [congruence|].
  unfold_tools. rewrite Hrepo; simpl. rewrite Huser; simpl. reflexivity.
Qed.

Lemma list_issues_unresolved_assignee_witness :
  list_issues (Some Fake.github) "acme/widgets" "open" 5 (Some "ghost")
  = ([Github_get_repo "acme/widgets"; Github_get_user "ghost"],
     inl (error_payload (gh_str Fake.not_found))).
Proof.
  apply (@list_issues_unresolved_assignee Fake.github Fake.widgets "acme/widgets"
           "open" "ghost" 5 Fake.not_found);
    [discriminate | reflexivity | reflexivity].
Defined.

(** X24.  When the repository enumerates no more issues than the limit,
    [list_issues] without assignee returns a record for every one of them,
    in order; the [assignees] field of a record lists the logins of the
    issue's assignees. *)
Theorem list_issues_returns_all (gh : Github) (repo : Repository)
    (name state : string) (limit : Z) (issues : list Issue) :
  github_get_repo gh name = inl repo ->
  repo_get_issues repo [("state", KwStr state)] = inl issues ->
  Z.of_nat (List.length issues) <= limit ->
  outcome (list_issues (Some gh) name state limit None)
  = inl (VList (map (fun issue =>
                       VDict [("title", VStr (issue_title issue));
                              ("number", VInt (issue_number issue));
                              ("url", VStr (issue_html_url issue));
                              ("state", VStr (issue_state issue));
                              ("created_at", VStr (isoformat (issue_created_at issue)));
                              ("assignees",
                               VList (map (fun a => VStr (user_login a))
                                        (issue_assignees issue)))])
                  issues))
  /\ forall i,
       In ("assignees", VList (map (fun a => VStr (user_login a)) (issue_assignees i)))
         match issue_record i with VDict d => d | _ => [] end.
Proof.
  intros Hrepo Hissues Hle. split.
  - unfold_tools. rewrite Hrepo; simpl. rewrite Hissues; simpl.
    now rewrite capped_append_all, (map_ext _ _ issue_record_eq).
  - intros i. unfold issue_record.
    destruct (issue_assignees i); simpl; tauto.
Qed.

Lemma list_issues_returns_all_witness :
  outcome (list_issues (Some Fake.github) "acme/widgets" "all" 10 None)
  = inl (VList (map issue_record Fake.issues))
  /\ forall i,
       In ("assignees", VList (map (fun a => VStr (user_login a)) (issue_assignees i)))
         match issue_record i with VDict d => d | _ => [] end.
Proof.
  apply (@list_issues_returns_all Fake.github Fake.widgets "acme/widgets" "all" 10
           Fake.issues);
    [reflexivity | reflexivity | simpl; lia].
Defined.
